(** * Bulk FIDO2 registration: step2CreateAndActivateCredential.py

    A shallow embedding of the device-interaction and orchestration code
    of [bulkRegistration/step2CreateAndActivateCredential.py].

    Python values are embedded as follows.
    - [str] is a Rocq [string] holding the UTF-8 encoding of the text;
      [py_len] counts code points.
    - [bytes] is a [list byte]; indexing is [!!], slicing is [take]/[drop].
    - [int] is [Z].
    - exceptions, [SystemExit] and running out of loop fuel are the
      constructors of [outcome].
    - the module-level global [pin], the operator's keyboard, the position
      in the random source and the log of external calls form [state].
    - everything outside the script (devices, libraries, the network, the
      random source) is a field of [world] or [entry_world].
    Console output ([print]) is not modelled, except the line announcing
    the user being processed. *)

From Stdlib Require Import ZArith NArith List String Ascii Lia Bool.
From Stdlib.Strings Require Import Byte.
From stdpp Require Import base gmap strings list pretty.
Import ListNotations.

Local Open Scope string_scope.
Local Open Scope Z_scope.
Local Open Scope list_scope.

(** ** Python values, exceptions, outcomes *)

#[warnings="-register-all"]
Inductive pyval : Type :=
| PyNone
| PyBool (b : bool)
| PyInt (z : Z)
| PyStr (s : string)
| PyList (l : list pyval)
| PyDict (d : list (string * pyval)).

Inductive exn : Type :=
| Exception (msg : string)
| ExceptionArgs (args : list pyval)
| IndexError
| KeyError (key : string)
| TypeError
| AttributeError
| StructError
| UnicodeDecodeError
| RecursionError
| EOFError
| LibraryError (origin : string).

(** What running a piece of the script yields.  [Raise] carries an
    instance of a subclass of [Exception]; [SysExit] is [SystemExit]
    (raised by [quit()] and [sys.exit]), which [except Exception] does not
    catch; [OutOfFuel] says the fuel given to a [while True] loop did not
    suffice. *)
Inductive outcome (A : Type) : Type :=
| Ret (a : A)
| Raise (e : exn)
| SysExit (code : option Z)
| OutOfFuel.
Arguments Ret {A} a.
Arguments Raise {A} e.
Arguments SysExit {A} code.
Arguments OutOfFuel {A}.

(** The answer of an external call: it returns or it raises. *)
Inductive reply (A : Type) : Type :=
| Reply (a : A)
| Fault (e : exn).
Arguments Reply {A} a.
Arguments Fault {A} e.

Definition bytes := list byte.

Definition byte_val (b : byte) : Z := Z.of_N (Byte.to_N b).

(** ** Configuration, devices, the world *)

(** [configs.json], the recognised options. *)
Record configs : Type := {
  tenantName : string;
  client_id : string;
  client_secret : string;
  setRandomPIN : bool;
  randomPINLength : Z;
  setMinimumPINLength : bool;
  minimumPINLength : Z;
  setForceChangePin : bool }.

Inductive digit : Type := D0 | D1 | D2 | D3 | D4 | D5 | D6 | D7 | D8 | D9.

(** [string.digits]: the character of each digit. *)
Definition digit_char (d : digit) : ascii :=
  match d with
  | D0 => "0" | D1 => "1" | D2 => "2" | D3 => "3" | D4 => "4"
  | D5 => "5" | D6 => "6" | D7 => "7" | D8 => "8" | D9 => "9"
  end%char.

(** An APDU answer: body and the two status bytes. *)
Definition apdu_response : Type := bytes * Z * Z.

Inductive transport : Type :=
| CtapHid (channel_id : Z) (packet_size : nat)
          (write_packet : reply unit) (read_packet : reply bytes)
| CtapPcsc (select_card_manager : reply apdu_response)
           (get_data : reply apdu_response)
           (select_fido : reply unit).

(** One authenticator as the fido2 library presents it: its transport,
    the option table of its [info], and how it answers the client-PIN and
    configuration commands. *)
Record device : Type := {
  dev_transport : transport;
  dev_info : reply (gmap string bool);
  dev_set_pin : string -> reply unit;
  dev_get_pin_token : string -> reply unit;
  dev_set_min_pin_length : Z -> reply unit;
  dev_force_change_pin : reply unit }.

Record artifact : Type := {
  attestation : string;
  client_data : string;
  credential_id : string;
  client_extension_results : string }.

Record http_response : Type := {
  status_code : Z;
  content : string;
  json : reply pyval }.

(** What the surroundings do while one worklist entry is processed. *)
Record entry_world : Type := {
  ew_polls : list (list device);
  ew_yubikeys : reply (list (option Z));
  ew_client_asks_pin : bool;
  ew_make_credential : reply artifact;
  ew_extensions_json : reply pyval;
  ew_activation : reply http_response }.

Record token_response : Type := {
  tr_access_token_match : option string;
  tr_decoded : reply pyval }.

Record world : Type := {
  w_configs : configs;
  w_windows_client_available : bool;
  w_is_user_an_admin : bool;
  w_rng : nat -> digit;
  w_urlsafe_b64decode : string -> reply bytes;
  w_today : string;
  w_token : reply token_response;
  w_entry : nat -> entry_world }.

(** ** Program state and the monad *)

(** [CredProtectExtension.POLICY] of the fido2 library, and the level
    each policy stands for. *)
Inductive POLICY : Type := OPTIONAL | OPTIONAL_WITH_LIST | REQUIRED.

Definition policy_level (p : POLICY) : Z :=
  match p with
  | OPTIONAL => 1
  | OPTIONAL_WITH_LIST => 2
  | REQUIRED => 3
  end.

(** The value under ["publicKey"] of the creation options. *)
Record creation_options : Type := {
  co_challenge : bytes;
  co_timeout : Z;
  co_attestation : string;
  co_rp_id : string;
  co_rp_name : string;
  co_user_id : bytes;
  co_user_displayName : string;
  co_user_name : string;
  co_pubKeyCredParams : list (string * Z);
  co_excludeCredentials : list pyval;
  co_authenticatorAttachment : string;
  co_requireResidentKey : bool;
  co_userVerification : string;
  co_hmacCreateSecret : bool;
  co_enforceCredentialProtectionPolicy : bool;
  co_credentialProtectionPolicy : POLICY }.

(** External calls, in the order the script makes them. *)
Inductive event : Type :=
| EvProcessingUser (user_name : string)
| EvInput
| EvGetpass (prompt : string)
| EvWritePacket (packet : bytes)
| EvReadPacket
| EvApduExchange (apdu : bytes)
| EvSelect
| EvSetPin (new_pin : string)
| EvGetPinToken (with_pin : string)
| EvSetMinPinLength (len : Z)
| EvForceChangePin
| EvPinToClient (given : string)
| EvMakeCredential (windows : bool) (origin : string) (opts : creation_options)
| EvTokenPost (endpoint : string)
| EvHttpPost (endpoint : string) (headers : list (string * string)) (body : pyval).

Record state : Type := {
  pin : string;
  keyboard : list string;
  rng_pos : nat;
  log : list event }.

Definition M (A : Type) : Type := state -> outcome A * state.

#[global] Instance M_ret : MRet M := fun A a s => (Ret a, s).

#[global] Instance M_bind : MBind M := fun A B k m s =>
  match m s with
  | (Ret a, s') => k a s'
  | (Raise e, s') => (Raise e, s')
  | (SysExit c, s') => (SysExit c, s')
  | (OutOfFuel, s') => (OutOfFuel, s')
  end.

Definition raise {A} (e : exn) : M A := fun s => (Raise e, s).
Definition sys_exit {A} (code : option Z) : M A := fun s => (SysExit code, s).
Definition out_of_fuel {A} : M A := fun s => (OutOfFuel, s).

Definition lift_reply {A} (r : reply A) : M A :=
  match r with Reply a => mret a | Fault e => raise e end.

Definition emit (ev : event) : M unit :=
  fun s => (Ret tt, {| pin := pin s; keyboard := keyboard s;
                       rng_pos := rng_pos s; log := log s ++ [ev] |}).

Definition get_pin : M string := fun s => (Ret (pin s), s).

(** [global pin; pin = v] *)
Definition set_global_pin (v : string) : M unit :=
  fun s => (Ret tt, {| pin := v; keyboard := keyboard s;
                       rng_pos := rng_pos s; log := log s |}).

(** [getpass(prompt)]: the next line the operator types, not echoed. *)
Definition getpass (prompt : string) : M string :=
  fun s =>
    let s1 := {| pin := pin s; keyboard := keyboard s;
                 rng_pos := rng_pos s; log := log s ++ [EvGetpass prompt] |} in
    match keyboard s with
    | [] => (Raise EOFError, s1)
    | line :: rest =>
        (Ret line, {| pin := pin s1; keyboard := rest;
                      rng_pos := rng_pos s1; log := log s1 |})
    end.

(** [secrets.choice(string.digits)]: the next draw of the random source. *)
Definition secrets_choice_digits (rng : nat -> digit) : M ascii :=
  fun s => (Ret (digit_char (rng (rng_pos s))),
            {| pin := pin s; keyboard := keyboard s;
               rng_pos := S (rng_pos s); log := log s |}).

(** [try: body  except Exception: handler] *)
Definition try_except_Exception {A} (body : M A) (handler : exn -> M A) : M A :=
  fun s =>
    match body s with
    | (Raise e, s') => handler e s'
    | other => other
    end.

(** [try: body  except: on_error  finally: cleanup], where the handler
    returns [on_error] from the enclosing function.  A bare [except]
    also catches [SystemExit].  The [finally] block runs on both paths; if
    it raises, its exception replaces the result. *)
Definition try_except_finally {A} (body : M A) (on_error : A) (cleanup : M unit) : M A :=
  fun s =>
    match body s with
    | (OutOfFuel, s') => (OutOfFuel, s')
    | (r, s') =>
        let result := match r with Ret a => a | _ => on_error end in
        match cleanup s' with
        | (Ret _, s'') => (Ret result, s'')
        | (Raise e, s'') => (Raise e, s'')
        | (SysExit c, s'') => (SysExit c, s'')
        | (OutOfFuel, s'') => (OutOfFuel, s'')
        end
    end.

(** ** PIN generation *)

Definition disallowed_pins : list string :=
  [ "12345678"; "12341234"; "87654321"; "12344321"; "11223344"; "12121212";
    "123456"; "123123"; "654321"; "123321"; "112233"; "121212"; "520520";
    "123654"; "159753" ].

(** ["".join(secrets.choice(string.digits) for _ in range(n))] *)
Fixpoint draw_digits (rng : nat -> digit) (n : nat) : M (list ascii) :=
  match n with
  | O => mret []
  | S n' =>
      c ← secrets_choice_digits rng;
      rest ← draw_digits rng n';
      mret (c :: rest)
  end.

(** [len(set(digits))] *)
Definition len_set (digits : list ascii) : nat :=
  size (list_to_set digits : gset ascii).

(** The test guarding [return digits]. *)
Definition pin_acceptable (digits : list ascii) : bool :=
  negb (Nat.eqb (len_set digits) 1)
  && negb (bool_decide (string_of_list_ascii digits ∈ disallowed_pins)).

(** The [while True] loop of [generate_pin], one unit of fuel per
    iteration; [length] is [configs["randomPINLength"]], and [range] of a
    negative number is empty. *)
Fixpoint generate_pin_loop (rng : nat -> digit) (fuel : nat) (length : Z) : M string :=
  match fuel with
  | O => out_of_fuel
  | S fuel' =>
      digits ← draw_digits rng (Z.to_nat length);
      if pin_acceptable digits
      then mret (string_of_list_ascii digits)
      else generate_pin_loop rng fuel' length
  end.

Definition generate_pin (w : world) (fuel : nat) : M string :=
  generate_pin_loop (w_rng w) fuel (randomPINLength (w_configs w)).

(** ** Strings and bytes *)

(** [s.replace(old, new)] for one-character ASCII [old] and [new]. *)
Fixpoint str_replace (old new : ascii) (s : string) : string :=
  match s with
  | EmptyString => EmptyString
  | String c rest =>
      String (if Ascii.eqb c old then new else c) (str_replace old new rest)
  end.

(** [c * n] for a one-character string. *)
Fixpoint str_repeat (c : ascii) (n : nat) : string :=
  match n with
  | O => EmptyString
  | S n' => String c (str_repeat c n')
  end.

Definition in_range (lo hi : Z) (b : byte) : bool :=
  (lo <=? byte_val b) && (byte_val b <=? hi).

(** [len(s)] of a [str]: its code points, that is the bytes of the
    encoding that are not continuation bytes. *)
Fixpoint py_len (s : string) : nat :=
  match s with
  | EmptyString => O
  | String c rest =>
      if in_range 128 191 (byte_of_ascii c) then py_len rest else S (py_len rest)
  end.

(** Well-formed UTF-8, as the strict [utf-8] codec accepts it. *)
Fixpoint valid_utf8 (l : bytes) : bool :=
  match l with
  | [] => true
  | b0 :: r0 =>
      if in_range 0 127 b0 then valid_utf8 r0 else
      match r0 with
      | [] => false
      | b1 :: r1 =>
          if in_range 194 223 b0 then in_range 128 191 b1 && valid_utf8 r1 else
          match r1 with
          | [] => false
          | b2 :: r2 =>
              if in_range 224 224 b0
              then in_range 160 191 b1 && in_range 128 191 b2 && valid_utf8 r2
              else if in_range 225 236 b0 || in_range 238 239 b0
              then in_range 128 191 b1 && in_range 128 191 b2 && valid_utf8 r2
              else if in_range 237 237 b0
              then in_range 128 159 b1 && in_range 128 191 b2 && valid_utf8 r2
              else
              match r2 with
              | [] => false
              | b3 :: r3 =>
                  if in_range 240 240 b0
                  then in_range 144 191 b1 && in_range 128 191 b2
                       && in_range 128 191 b3 && valid_utf8 r3
                  else if in_range 241 243 b0
                  then in_range 128 191 b1 && in_range 128 191 b2
                       && in_range 128 191 b3 && valid_utf8 r3
                  else if in_range 244 244 b0
                  then in_range 128 143 b1 && in_range 128 191 b2
                       && in_range 128 191 b3 && valid_utf8 r3
                  else false
              end
          end
      end
  end.

(** [b.decode("utf-8")] *)
Definition decode_utf8 (b : bytes) : M string :=
  if valid_utf8 b then mret (string_of_list_byte b) else raise UnicodeDecodeError.

Definition byte_of_Z (z : Z) : byte :=
  match Byte.of_N (Z.to_N (z mod 256)) with Some b => b | None => x00 end.

(** [struct.pack(">IBBBB", i, a, b, c, d)] *)
Definition struct_pack_IBBBB (i a b c d : Z) : M bytes :=
  if (0 <=? i) && (i <? 2 ^ 32)
     && forallb (fun x => (0 <=? x) && (x <=? 255)) [a; b; c; d]
  then mret [ byte_of_Z (i / 2 ^ 24); byte_of_Z (i / 2 ^ 16);
              byte_of_Z (i / 2 ^ 8); byte_of_Z i;
              byte_of_Z a; byte_of_Z b; byte_of_Z c; byte_of_Z d ]
  else raise StructError.

(** The big-endian unsigned 32-bit integer in the first four bytes. *)
Definition unpack_I (recv : bytes) : option Z :=
  match recv with
  | b0 :: b1 :: b2 :: b3 :: _ =>
      Some (byte_val b0 * 2 ^ 24 + byte_val b1 * 2 ^ 16
            + byte_val b2 * 2 ^ 8 + byte_val b3)
  | _ => None
  end.

(** [struct.unpack_from(">I", recv)[0]] *)
Definition struct_unpack_from_I (recv : bytes) : M Z :=
  match unpack_I recv with
  | Some v => mret v
  | None => raise StructError
  end.

(** [b.ljust(width, b"\0")] *)
Definition ljust (width : nat) (b : bytes) : bytes :=
  b ++ repeat x00 (width - length b).

(** [recv[i]] *)
Definition bytes_index (recv : bytes) (i : nat) : M Z :=
  match recv !! i with
  | Some b => mret (byte_val b)
  | None => raise IndexError
  end.

(** [sys.getsizeof(recv)] of a [bytes] object: the size of the object in
    memory, header included (33 bytes of header and terminator on a
    64-bit CPython), not the number of bytes it holds. *)
Definition sys_getsizeof (recv : bytes) : Z := 33 + Z.of_nat (length recv).

(** ** Transport probe *)

(** [enumerate_devices] is asked once per call of [wait_device_loop];
    [polls] holds its successive answers.  The function calls itself while
    no device is present, so the answers it can consume are bounded by the
    interpreter's recursion limit; past the last one it raises
    [RecursionError]. *)
Fixpoint wait_device_loop (polls : list (list device)) : M device :=
  match polls with
  | [] => raise RecursionError
  | devices :: later =>
      match devices with
      | [] => wait_device_loop later
      | [d] => mret d
      | d :: _ :: _ => raise (Exception "More than one device found.")
      end
  end.

Definition wait_device (ew : entry_world) : M device :=
  wait_device_loop (ew_polls ew).

(** The branch of [get_thales_serial_number] for a [CtapHidDevice], from
    the response packet on: channel check, status check, size check,
    decoding. *)
Definition read_thales_serial_hid (channel_id : Z) (recv : bytes) : M string :=
  r_channel ← struct_unpack_from_I recv;
  if negb (r_channel =? channel_id) then raise (Exception "Wrong channel") else
  b7 ← bytes_index recv 7;
  status_differs ←
    (if negb (b7 =? 0) then mret true
     else b8 ← bytes_index recv 8; mret (negb (b8 =? 0x02)));
  if (status_differs : bool)
  then raise (Exception "Unable to get Thales Serial Number") else
  if sys_getsizeof recv <? 17
  then raise (Exception "Unable to get Thales Serial Number") else
  decode_utf8 (take 8 (drop 9 recv)).

(** The whole branch: the command packet is written, one packet is read
    and examined. *)
Definition thales_serial_number_hid (channel_id : Z) (packet_size : nat)
    (write_packet : reply unit) (read_packet : reply bytes) : M string :=
  packet ← struct_pack_IBBBB channel_id (Z.lor 128 0x50) 0x00 0x01 0x55;
  emit (EvWritePacket (ljust packet_size packet));;
  lift_reply write_packet;;
  emit EvReadPacket;;
  recv ← lift_reply read_packet;
  read_thales_serial_hid channel_id recv.

Definition AID_CM : bytes := [xa0; x00; x00; x00; x03; x00; x00; x00].

Definition SW_SUCCESS : Z * Z := (0x90, 0x00).

Definition sw_differs (sw1 sw2 : Z) : bool :=
  negb ((sw1 =? fst SW_SUCCESS) && (sw2 =? snd SW_SUCCESS)).

Definition apdu_exchange (answer : reply apdu_response) (apdu : bytes) : M apdu_response :=
  emit (EvApduExchange apdu);; lift_reply answer.

(** The body of the [try] block of the contactless branch. *)
Definition thales_serial_number_nfc_try
    (select_card_manager get_data : reply apdu_response) : M string :=
  let apdu := [x00; xa4; x04; x00]
              ++ [byte_of_Z (Z.of_nat (length AID_CM))] ++ AID_CM in
  r1 ← apdu_exchange select_card_manager apdu;
  if sw_differs (snd (fst r1)) (snd r1)
  then raise (Exception "Card Manager applet selection failure.") else
  r2 ← apdu_exchange get_data [x80; xca; x01; x04];
  if sw_differs (snd (fst r2)) (snd r2)
  then raise (Exception "Unable to get Thales serial number.") else
  decode_utf8 (drop 3 (fst (fst r2))).

(** [device._select()] *)
Definition device_select (select_fido : reply unit) : M unit :=
  emit EvSelect;; lift_reply select_fido.

Definition get_thales_serial_number (dev : device) : M string :=
  match dev_transport dev with
  | CtapHid channel_id packet_size write_packet read_packet =>
      thales_serial_number_hid channel_id packet_size write_packet read_packet
  | CtapPcsc select_card_manager get_data select_fido =>
      try_except_finally
        (thales_serial_number_nfc_try select_card_manager get_data)
        "" (device_select select_fido)
  end.

(** [list_all_devices()] answers with the serial of each YubiKey found;
    the loop returns at its first element. *)
Definition get_serial_number (ew : entry_world) (dev : device) : M pyval :=
  infos ← lift_reply (ew_yubikeys ew);
  match infos with
  | serial :: _ =>
      mret (match serial with Some n => PyInt n | None => PyNone end)
  | [] => serial ← get_thales_serial_number dev; mret (PyStr serial)
  end.

(** ** PIN manager *)

Definition use_windows_client (w : world) : bool :=
  w_windows_client_available w && negb (w_is_user_an_admin w).

(** Truth value of [options.get(key)]. *)
Definition option_set (options : gmap string bool) (key : string) : bool :=
  match options !! key with Some b => b | None => false end.

(** [Ctap2(device)]: reads the authenticator's [info]. *)
Definition Ctap2 (dev : device) : M (gmap string bool) := lift_reply (dev_info dev).

Definition generate_and_set_pin (w : world) (fuel : nat) (dev : device) : M unit :=
  if setRandomPIN (w_configs w) then
    options ← Ctap2 dev;
    if option_set options "clientPin" then sys_exit None else
    new_pin ← generate_pin w fuel;
    set_global_pin new_pin;;
    emit (EvSetPin new_pin);;
    lift_reply (dev_set_pin dev new_pin)
  else mret tt.

Definition set_ctap21_flags (w : world) (dev : device) : M unit :=
  if negb (use_windows_client w) then
    (if negb (setRandomPIN (w_configs w))
     then entered ← getpass "Please enter the PIN:"; set_global_pin entered
     else mret tt);;
    options ← Ctap2 dev;
    if option_set options "setMinPINLength" then
      current ← get_pin;
      emit (EvGetPinToken current);;
      lift_reply (dev_get_pin_token dev current);;
      (if setMinimumPINLength (w_configs w)
       then emit (EvSetMinPinLength (minimumPINLength (w_configs w)));;
            lift_reply (dev_set_min_pin_length dev (minimumPINLength (w_configs w)))
       else mret tt);;
      (if setForceChangePin (w_configs w)
       then emit EvForceChangePin;; lift_reply (dev_force_change_pin dev)
       else mret tt)
    else mret tt
  else mret tt.

(** [CliInteraction.request_pin] *)
Definition request_pin (w : world) : M string :=
  if negb (setRandomPIN (w_configs w)) then getpass "Enter PIN: " else get_pin.

(** ** Registration ceremony *)

Definition base64url_to_bytearray (w : world) (b64url_string : string) : M bytes :=
  let temp := str_replace "-" "+" (str_replace "_" "/" b64url_string) in
  lift_reply
    (w_urlsafe_b64decode w (temp +:+ str_repeat "=" (4 - py_len temp mod 4))).

(** The value under ["publicKey"] of the dictionary the function builds. *)
Definition build_creation_options (w : world)
    (challenge userId displayName name rp_id : string) : M creation_options :=
  challenge_bytes ← base64url_to_bytearray w challenge;
  user_id_bytes ← base64url_to_bytearray w userId;
  mret {| co_challenge := challenge_bytes;
          co_timeout := 0;
          co_attestation := "direct";
          co_rp_id := rp_id;
          co_rp_name := "Microsoft";
          co_user_id := user_id_bytes;
          co_user_displayName := displayName;
          co_user_name := name;
          co_pubKeyCredParams := [("public-key", -7); ("public-key", -257)];
          co_excludeCredentials := [];
          co_authenticatorAttachment := "cross-platform";
          co_requireResidentKey := true;
          co_userVerification := "required";
          co_hmacCreateSecret := true;
          co_enforceCredentialProtectionPolicy := true;
          co_credentialProtectionPolicy := OPTIONAL |}.

(** The client is chosen, then asked to make the credential.  A
    [Fido2Client] may call back [request_pin]; [ew_client_asks_pin] says
    whether it does. *)
Definition create_credentials_on_security_key (w : world) (ew : entry_world)
    (fuel : nat) (user_id challenge user_display_name user_name rp_id : string)
    : M (string * string * string * string * pyval) :=
  dev ← wait_device ew;
  serial_number ← get_serial_number ew dev;
  windows ←
    (if use_windows_client w
     then set_global_pin "n/a";; mret true
     else generate_and_set_pin w fuel dev;;
          options ← lift_reply (dev_info dev);
          match options !! "rk" with
          | Some false => sys_exit (Some 1)
          | _ => mret false
          end);
  pkcco ← build_creation_options w challenge user_id user_display_name user_name rp_id;
  emit (EvMakeCredential windows ("https://" +:+ rp_id) pkcco);;
  (if negb windows && ew_client_asks_pin ew
   then given ← request_pin w; emit (EvPinToClient given)
   else mret tt);;
  result ← lift_reply (ew_make_credential ew);
  (if setMinimumPINLength (w_configs w) || setForceChangePin (w_configs w)
   then set_ctap21_flags w dev
   else mret tt);;
  mret (attestation result, client_data result, credential_id result,
        client_extension_results result, serial_number).

(** ** Activation client *)

(** [str(v)] for the values a serial number takes. *)
Definition py_str (v : pyval) : string :=
  match v with
  | PyStr s => s
  | PyInt z => pretty z
  | PyNone => "None"
  | PyBool true => "True"
  | PyBool false => "False"
  | PyList [] => "[]"
  | _ => "..."
  end.

Fixpoint assoc_lookup (key : string) (d : list (string * pyval)) : option pyval :=
  match d with
  | [] => None
  | (k, v) :: rest => if String.eqb k key then Some v else assoc_lookup key rest
  end.

(** [v[key]] for a string key. *)
Definition py_getitem (v : pyval) (key : string) : M pyval :=
  match v with
  | PyDict d =>
      match assoc_lookup key d with
      | Some x => mret x
      | None => raise (KeyError key)
      end
  | _ => raise TypeError
  end.

(** [key in v.keys()] *)
Definition py_in_keys (key : string) (v : pyval) : M bool :=
  match v with
  | PyDict d => mret (bool_decide (is_Some (assoc_lookup key d)))
  | _ => raise AttributeError
  end.

Definition get_access_token_for_microsoft_graph (w : world) : M string :=
  emit (EvTokenPost ("https://login.microsoftonline.com/"
                     +:+ tenantName (w_configs w) +:+ "/oauth2/v2.0/token"));;
  token_response ← lift_reply (w_token w);
  decoded_response ← lift_reply (tr_decoded token_response);
  has_error ← py_in_keys "error" decoded_response;
  if (has_error : bool) then
    error ← py_getitem decoded_response "error";
    description ← py_getitem decoded_response "error_description";
    raise (ExceptionArgs [error; description])
  else
    match tr_access_token_match token_response with
    | Some token => mret token
    | None => raise AttributeError
    end.

Definition set_http_headers (access_token : string) : list (string * string) :=
  [ ("Accept", "application/json");
    ("Authorization", access_token);
    ("Content-Type", "application/json");
    ("Accept-Encoding", "gzip, deflate, br") ].

(** [ew_extensions_json] is the value of
    [json.loads(base64.b64decode(str(client_extensions)).decode("utf-8"))];
    [ew_activation] is the answer of [requests.post]. *)
Definition create_and_activate_fido_method (w : world) (ew : entry_world)
    (credential_id client_extensions user_name attestation client_data : string)
    (serial_number : pyval) (access_token : string) : M (bool * pyval) :=
  let headers := set_http_headers access_token in
  let fido_credentials_endpoint :=
    "https://graph.microsoft.com/beta/users/" +:+ user_name
    +:+ "/authentication/fido2Methods" in
  extensions ← lift_reply (ew_extensions_json ew);
  let body :=
    PyDict [ ("publicKeyCredential",
              PyDict [ ("id", PyStr credential_id);
                       ("response",
                        PyDict [ ("attestationObject", PyStr attestation);
                                 ("clientDataJSON", PyStr client_data) ]);
                       ("clientExtensionResults", extensions) ]);
             ("displayName",
              PyStr ("Serial: " +:+ py_str serial_number +:+ " " +:+ w_today w)) ] in
  emit (EvHttpPost fido_credentials_endpoint headers body);;
  response ← lift_reply (ew_activation ew);
  if status_code response =? 201 then
    create_response ← lift_reply (json response);
    id ← py_getitem create_response "id";
    mret (true, id)
  else mret (false, PyList []).

(** ** Batch orchestrator *)

(** [input(...)]: the operator presses Enter. *)
Definition input_enter : M unit := emit EvInput.

Definition warn_user_about_pin_behaviors (w : world) : M unit :=
  (if w_windows_client_available w then
     (if w_is_user_an_admin w then
        (if negb (setRandomPIN (w_configs w)) then input_enter else mret tt);;
        (if setRandomPIN (w_configs w) then input_enter else mret tt)
      else mret tt);;
     (if negb (w_is_user_an_admin w) then
        (if setRandomPIN (w_configs w) then input_enter else mret tt)
      else mret tt)
   else mret tt);;
  (if negb (w_windows_client_available w) then
     (if negb (setRandomPIN (w_configs w)) then input_enter else mret tt);;
     (if setRandomPIN (w_configs w) then input_enter else mret tt)
   else mret tt).

(** [row[i]] *)
Definition row_index (row : list string) (i : nat) : M string :=
  match row !! i with
  | Some cell => mret cell
  | None => raise IndexError
  end.

(** The body of the [try] block: the ceremony, then the activation. *)
Definition register_and_activate (w : world) (ew : entry_world) (fuel : nat)
    (access_token user_id challenge user_display_name user_name rp_id : string)
    : M (pyval * pyval) :=
  '(att, clientData, credId, extn, serial) ←
    create_credentials_on_security_key w ew fuel
      user_id challenge user_display_name user_name rp_id;
  '(activated, auth_method) ←
    create_and_activate_fido_method w ew
      credId extn user_name att clientData serial access_token;
  mret (auth_method, serial).

(** A row of the output file, as given to [csv_writer.writerow]. *)
Definition out_row : Type := list pyval.

Definition header_row : out_row :=
  [PyStr "#upn"; PyStr "entraIDAuthMethodObjectId"; PyStr "serialNumber"; PyStr "PIN"].

(** One pass through the [else] branch of the loop body, up to the row to
    write: [Some row] when the [try] block went through, [None] when its
    handler executed [return]. *)
Definition process_row (w : world) (fuel : nat) (access_token : string)
    (line_count : nat) (row : list string) : M (option out_row) :=
  user_name ← row_index row 0;
  user_display_name ← row_index row 1;
  user_id ← row_index row 2;
  challenge ← row_index row 3;
  challenge_expiry_time ← row_index row 4;
  rp_id ← row_index row 5;
  emit (EvProcessingUser user_name);;
  registered ←
    try_except_Exception
      (r ← register_and_activate w (w_entry w line_count) fuel
             access_token user_id challenge user_display_name user_name rp_id;
       mret (Some r))
      (fun error => mret None);
  match registered with
  | None => mret None
  | Some (auth_method, serial) =>
      current_pin ← get_pin;
      mret (Some [PyStr user_name; auth_method; serial; PyStr current_pin])
  end.

(** How the [for] loop ends: it ran out of rows, or [main] returned from
    inside it. *)
Inductive loop_exit : Type := Finished | Returned.

(** [for row in csv_reader: ...] with the local [csv_writer] as [out]. *)
Fixpoint main_loop (w : world) (fuel : nat) (access_token : string)
    (line_count : nat) (rows : list (list string)) (out : list out_row)
    (s : state) : outcome loop_exit * list out_row * state :=
  match rows with
  | [] => (Ret Finished, out, s)
  | row :: rest =>
      if Nat.eqb line_count 0
      then main_loop w fuel access_token (S line_count) rest out s
      else
        match process_row w fuel access_token line_count row s with
        | (Ret (Some written), s1) =>
            main_loop w fuel access_token (S line_count) rest
              (out ++ [written]) (snd (input_enter s1))
        | (Ret None, s1) => (Ret Returned, out, s1)
        | (Raise e, s1) => (Raise e, out, s1)
        | (SysExit c, s1) => (SysExit c, out, s1)
        | (OutOfFuel, s1) => (OutOfFuel, out, s1)
        end
  end.

(** [main()]: the rows of the input file in, the rows of the output file
    out.  Nothing is written when the token request fails, since the
    output file is opened after it. *)
Definition main (w : world) (fuel : nat) (rows : list (list string))
    (s : state) : outcome unit * list out_row * state :=
  match (warn_user_about_pin_behaviors w;;
         get_access_token_for_microsoft_graph w) s with
  | (Ret access_token, s1) =>
      match main_loop w fuel access_token 0 rows [header_row] s1 with
      | (Ret _, out, s2) => (Ret tt, out, s2)
      | (Raise e, out, s2) => (Raise e, out, s2)
      | (SysExit c, out, s2) => (SysExit c, out, s2)
      | (OutOfFuel, out, s2) => (OutOfFuel, out, s2)
      end
  | (Raise e, s1) => (Raise e, [], s1)
  | (SysExit c, s1) => (SysExit c, [], s1)
  | (OutOfFuel, s1) => (OutOfFuel, [], s1)
  end.

(** ** Auxiliary definitions for the statements *)

Definition advance_rng (n : nat) (s : state) : state :=
  {| pin := pin s; keyboard := keyboard s;
     rng_pos := (rng_pos s + n)%nat; log := log s |}.

(** The digits the random source yields from position [pos] on. *)
Fixpoint candidate (rng : nat -> digit) (pos n : nat) : list ascii :=
  match n with
  | O => []
  | S n' => digit_char (rng pos) :: candidate rng (S pos) n'
  end.

(** The [k]-th candidate the loop examines when started at [pos]. *)
Definition nth_candidate (rng : nat -> digit) (pos n k : nat) : list ascii :=
  candidate rng (pos + k * n) n.

(** The state after the external calls [evs] have been logged. *)
Definition logged (evs : list event) (s : state) : state :=
  {| pin := pin s; keyboard := keyboard s;
     rng_pos := rng_pos s; log := log s ++ evs |}.

(** The command packet of the serial-number request, padded. *)
Definition thales_request (channel_id : Z) (packet_size : nat) : bytes :=
  ljust packet_size
    [ byte_of_Z (channel_id / 2 ^ 24); byte_of_Z (channel_id / 2 ^ 16);
      byte_of_Z (channel_id / 2 ^ 8); byte_of_Z channel_id;
      xd0; x00; x01; x55 ].

(** A random source that yields the digits of [ds], then zeros. *)
Definition rng_of_list (ds : list digit) : nat -> digit :=
  fun i => default D0 (ds !! i).

Definition with_rng (w : world) (rng : nat -> digit) : world :=
  {| w_configs := w_configs w;
     w_windows_client_available := w_windows_client_available w;
     w_is_user_an_admin := w_is_user_an_admin w;
     w_rng := rng;
     w_urlsafe_b64decode := w_urlsafe_b64decode w;
     w_today := w_today w;
     w_token := w_token w;
     w_entry := w_entry w |}.

(** The state in which the script starts: [pin = ""], nothing drawn,
    nothing logged; [typed] is what the operator will type. *)
Definition initial_state (typed : list string) : state :=
  {| pin := ""; keyboard := typed; rng_pos := 0; log := [] |}.

(** ** Concrete worlds, for running the model *)

Definition sample_configs (random : bool) (len : Z) (min_len force : bool) : configs :=
  {| tenantName := "contoso.onmicrosoft.com";
     client_id := "11111111-2222-3333-4444-555555555555";
     client_secret := "app-secret";
     setRandomPIN := random;
     randomPINLength := len;
     setMinimumPINLength := min_len;
     minimumPINLength := 6;
     setForceChangePin := force |}.

(** An authenticator that accepts every command. *)
Definition sample_device (t : transport) (options : gmap string bool) : device :=
  {| dev_transport := t;
     dev_info := Reply options;
     dev_set_pin := fun _ => Reply tt;
     dev_get_pin_token := fun _ => Reply tt;
     dev_set_min_pin_length := fun _ => Reply tt;
     dev_force_change_pin := Reply tt |}.

Definition sample_artifact : artifact :=
  {| attestation := "o2NmbXRmcGFja2Vk";
     client_data := "eyJ0eXBlIjoid2ViYXV0aG4uY3JlYXRlIn0";
     credential_id := "Y3JlZC0wMDE";
     client_extension_results := "eyJobWFjLXNlY3JldCI6IHRydWV9" |}.

(** The key is plugged in at the second poll; no YubiKey is listed; the
    client asks for the PIN; the ceremony succeeds; the service answers
    [response]. *)
Definition sample_entry (dev : device) (response : reply http_response) : entry_world :=
  {| ew_polls := [[]; [dev]];
     ew_yubikeys := Reply [];
     ew_client_asks_pin := true;
     ew_make_credential := Reply sample_artifact;
     ew_extensions_json := Reply (PyDict [("hmac-secret", PyBool true)]);
     ew_activation := response |}.

Definition sample_world (cfg : configs) (rng : nat -> digit)
    (entries : nat -> entry_world) : world :=
  {| w_configs := cfg;
     w_windows_client_available := false;
     w_is_user_an_admin := false;
     w_rng := rng;
     w_urlsafe_b64decode := fun _ => Reply [x01; x02; x03];
     w_today := "2024-05-01";
     w_token :=
       Reply {| tr_access_token_match := Some "eyJ0eXAi";
                tr_decoded := Reply (PyDict [("access_token", PyStr "eyJ0eXAi")]) |};
     w_entry := entries |}.

Definition http_created (id : string) : http_response :=
  {| status_code := 201;
     content := "{...}";
     json := Reply (PyDict [("@odata.context", PyStr "..."); ("id", PyStr id)]) |}.

Definition http_bad_request : http_response :=
  {| status_code := 400;
     content := "{...}";
     json := Reply (PyDict [("error", PyDict [("code", PyStr "badRequest")])]) |}.

(** A well-formed answer of a Thales key on channel 0x01020304: status
    bytes 0 and 2, then the serial in ASCII. *)
Definition hid_answer (serial : bytes) : bytes :=
  [x01; x02; x03; x04; xd0; x00; x0a; x00; x02] ++ serial.

Definition sample_hid (answer : bytes) : transport :=
  CtapHid 0x01020304 64 (Reply tt) (Reply answer).

Definition three_candidates : nat -> digit :=
  rng_of_list [D1; D1; D1; D1; D1; D1;  D1; D2; D3; D4; D5; D6;  D4; D0; D7; D1; D9; D3].

(** A Thales key on USB whose serial number is SN123456. *)
Definition thales_key (options : gmap string bool) : device :=
  sample_device
    (sample_hid (hid_answer [x53; x4e; x31; x32; x33; x34; x35; x36])) options.

(** A world in which every entry meets [thales_key options] and the
    service answers 201 with the id abc123. *)
Definition demo_world (cfg : configs) (options : gmap string bool) : world :=
  sample_world cfg three_candidates
    (fun _ => sample_entry (thales_key options) (Reply (http_created "abc123"))).

Definition worklist_header : list string :=
  ["username"; "displayName"; "userId"; "challenge"; "challengeExpiry"; "rpId"].

Definition worklist_row (user display : string) : list string :=
  [user; display; "dXNlci0x"; "Y2hhbGxlbmdl"; "2024-05-01T12:00:00Z"; "login.microsoft.com"].

(** A random source that repeats the digits of [ds]. *)
Definition rng_cycle (ds : list digit) : nat -> digit :=
  fun i => default D0 (ds !! (i mod length ds)%nat).

(** Three entries; at the second the ceremony raises. *)
Definition second_ceremony_fails : world :=
  sample_world (sample_configs true 6 false false)
    (rng_cycle [D4; D0; D7; D1; D9; D3])
    (fun line =>
       if Nat.eqb line 2
       then {| ew_polls := [[thales_key ∅]];
               ew_yubikeys := Reply [];
               ew_client_asks_pin := true;
               ew_make_credential := Fault (LibraryError "CTAP error: 0x27 - OPERATION_DENIED");
               ew_extensions_json := Reply (PyDict []);
               ew_activation := Reply (http_created "def456") |}
       else sample_entry (thales_key ∅) (Reply (http_created "abc123"))).

(** The operator's own PIN is in use and a minimum PIN length is to be
    set; the key supports it. *)
Definition operator_pin_world : world :=
  demo_world (sample_configs false 6 true false) {["setMinPINLength" := true]}.

(** The users whose processing was begun, in order. *)
Fixpoint announced_users (evs : list event) : list string :=
  match evs with
  | [] => []
  | EvProcessingUser user :: rest => user :: announced_users rest
  | _ :: rest => announced_users rest
  end.

(** As [demo_world], but the service answers 400. *)
Definition bad_request_world : world :=
  sample_world (sample_configs true 6 false false) three_candidates
    (fun _ => sample_entry (thales_key ∅) (Reply http_bad_request)).

(** ** Relations between the state before and after a piece of the script *)

(** [m] takes every state to a state related to it by [R]. *)
Definition respects (R : state -> state -> Prop) {A : Type} (m : M A) : Prop :=
  forall s, R s (snd (m s)).

(** Nothing changed but the log, which grew. *)
Definition log_grew (s s' : state) : Prop := exists evs, s' = logged evs s.

(** The global [pin] is what it was, and the log grew. *)
Definition pin_kept (s s' : state) : Prop :=
  pin s' = pin s /\ exists evs, log s' = log s ++ evs.

(** The operator typed nothing and nothing was drawn from the random
    source. *)
Definition inputs_untouched (s s' : state) : Prop :=
  keyboard s' = keyboard s /\ rng_pos s' = rng_pos s.

(** The SELECT command for the card-manager applet, and the GET DATA
    command that asks for the serial number. *)
Definition select_card_manager_apdu : bytes :=
  [x00; xa4; x04; x00; x08; xa0; x00; x00; x00; x03; x00; x00; x00].

Definition get_serial_apdu : bytes := [x80; xca; x01; x04].

(** The first cell of a row of the output file. *)
Definition first_cell (r : out_row) : option pyval := r !! 0%nat.

(** The PIN cell of a row of the output file. *)
Definition pin_cell (r : out_row) : option pyval := r !! 3%nat.

(** The events that carry a PIN or change the PIN policy of the device,
    and the prompts for a PIN. *)
Definition is_pin_event (ev : event) : bool :=
  match ev with
  | EvGetpass _ | EvSetPin _ | EvGetPinToken _ | EvSetMinPinLength _
  | EvForceChangePin | EvPinToClient _ => true
  | _ => false
  end.

(** Nothing was typed, nothing was drawn, and the log grew by events that
    involve no PIN. *)
Definition no_pin_traffic (s s' : state) : Prop :=
  keyboard s' = keyboard s /\ rng_pos s' = rng_pos s
  /\ exists evs, log s' = log s ++ evs
                 /\ Forall (fun ev => is_pin_event ev = false) evs.

(** The option table of a key that can enforce a minimum PIN length. *)
Definition min_pin_options : gmap string bool := {["setMinPINLength" := true]}.

(** The option table of a key that reports nothing, and the world in
    which PINs of six digits are generated for such keys. *)
Definition no_options : gmap string bool := ∅.

Definition random_pin_world : world :=
  demo_world (sample_configs true 6 false false) no_options.

(** The same world on Windows, without administrator rights. *)
Definition with_windows_client (w : world) : world :=
  {| w_configs := w_configs w;
     w_windows_client_available := true;
     w_is_user_an_admin := false;
     w_rng := w_rng w;
     w_urlsafe_b64decode := w_urlsafe_b64decode w;
     w_today := w_today w;
     w_token := w_token w;
     w_entry := w_entry w |}.

(** The same world with another answer of the token endpoint. *)
Definition with_token (w : world) (answer : reply token_response) : world :=
  {| w_configs := w_configs w;
     w_windows_client_available := w_windows_client_available w;
     w_is_user_an_admin := w_is_user_an_admin w;
     w_rng := w_rng w;
     w_urlsafe_b64decode := w_urlsafe_b64decode w;
     w_today := w_today w;
     w_token := answer;
     w_entry := w_entry w |}.

(** The same world with other surroundings for the entries. *)
Definition with_entries (w : world) (entries : nat -> entry_world) : world :=
  {| w_configs := w_configs w;
     w_windows_client_available := w_windows_client_available w;
     w_is_user_an_admin := w_is_user_an_admin w;
     w_rng := w_rng w;
     w_urlsafe_b64decode := w_urlsafe_b64decode w;
     w_today := w_today w;
     w_token := w_token w;
     w_entry := entries |}.

(** Entries whose client-extension results cannot be read back, whose
    activation succeeds with a body that has no "id", and whose key has no
    support for discoverable credentials. *)
Definition unreadable_extensions_entry : entry_world :=
  {| ew_polls := [[thales_key no_options]];
     ew_yubikeys := Reply [];
     ew_client_asks_pin := true;
     ew_make_credential := Reply sample_artifact;
     ew_extensions_json := Fault (LibraryError "binascii.Error: Incorrect padding");
     ew_activation := Reply (http_created "abc123") |}.

Definition created_without_id : http_response :=
  {| status_code := 201; content := "{}"; json := Reply (PyDict []) |}.

Definition no_rk_options : gmap string bool := {["rk" := false]}.

(** The state of the ceremony of the first entry of [w], once it is
    through. *)
Definition after_first_ceremony (w : world) : state :=
  snd (create_credentials_on_security_key w (w_entry w 1) 3
         "dXNlci0x" "Y2hhbGxlbmdl" "Alice" "alice@contoso.com" "login.microsoft.com"
         (logged [EvProcessingUser "alice@contoso.com"] (initial_state []))).

(** Two entries: the service refuses the first with 400 and accepts the
    second. *)
Definition refused_then_created : world :=
  sample_world (sample_configs true 6 false false)
    (rng_cycle [D4; D0; D7; D1; D9; D3])
    (fun line =>
       if Nat.eqb line 1
       then sample_entry (thales_key no_options) (Reply http_bad_request)
       else sample_entry (thales_key no_options) (Reply (http_created "def456"))).

(** What the two calls of [replace] in [base64url_to_bytearray] do to one
    character: the URL-safe "-" and "_" become "+" and "/". *)
Definition standard_alphabet (c : ascii) : ascii :=
  if Ascii.eqb c "-" then "+"%char
  else if Ascii.eqb c "_" then "/"%char
  else c.


(** * Properties *)

(** ** Generated PINs *)

Lemma advance_rng_0 s : advance_rng 0 s = s.
Proof. destruct s; unfold advance_rng; simpl. f_equal. lia. Qed.

Lemma draw_digits_spec rng n : forall s,
  draw_digits rng n s = (Ret (candidate rng (rng_pos s) n), advance_rng n s).
Proof.
  induction n as [|n IH]; intros s; simpl.
  - unfold mret, M_ret. by rewrite advance_rng_0.
  - unfold mbind, M_bind, secrets_choice_digits at 1. simpl.
    rewrite IH. simpl. unfold mret, M_ret, advance_rng. simpl.
    do 2 f_equal. lia.
Qed.

Lemma candidate_length rng n : forall pos, length (candidate rng pos n) = n.
Proof. induction n as [|n IH]; intros pos; simpl; [done | by rewrite IH]. Qed.

Lemma string_of_list_ascii_length l :
  String.length (string_of_list_ascii l) = length l.
Proof. induction l as [|c l IH]; simpl; [done | by rewrite IH]. Qed.

(** One iteration of the loop, unfolded. *)
Lemma generate_pin_loop_step rng fuel len s :
  generate_pin_loop rng (S fuel) len s =
  let digits := candidate rng (rng_pos s) (Z.to_nat len) in
  if pin_acceptable digits
  then (Ret (string_of_list_ascii digits), advance_rng (Z.to_nat len) s)
  else generate_pin_loop rng fuel len (advance_rng (Z.to_nat len) s).
Proof.
  simpl. unfold mbind, M_bind at 1. rewrite draw_digits_spec.
  by destruct (pin_acceptable _).
Qed.

(** The loop returns the first acceptable candidate, untouched. *)
Lemma generate_pin_loop_first rng len k : forall fuel s,
  (k < fuel)%nat ->
  (forall j, (j < k)%nat ->
     pin_acceptable (nth_candidate rng (rng_pos s) (Z.to_nat len) j) = false) ->
  pin_acceptable (nth_candidate rng (rng_pos s) (Z.to_nat len) k) = true ->
  generate_pin_loop rng fuel len s =
  (Ret (string_of_list_ascii (nth_candidate rng (rng_pos s) (Z.to_nat len) k)),
   advance_rng (S k * Z.to_nat len) s).
Proof.
  induction k as [|k IH]; intros fuel s Hk Hrej Hacc;
    (destruct fuel as [|fuel]; [lia|]); rewrite generate_pin_loop_step; cbv zeta.
  - unfold nth_candidate in Hacc. rewrite Nat.add_0_r in Hacc. rewrite Hacc.
    unfold nth_candidate. rewrite Nat.add_0_r. do 2 f_equal. lia.
  - pose proof (Hrej O ltac:(lia)) as H0. unfold nth_candidate in H0.
    rewrite Nat.add_0_r in H0. rewrite H0.
    rewrite (IH fuel (advance_rng (Z.to_nat len) s)).
    + unfold nth_candidate, advance_rng; cbn [rng_pos pin keyboard log].
      f_equal; [do 3 f_equal; lia | f_equal; lia].
    + lia.
    + intros j Hj. specialize (Hrej (S j) ltac:(lia)).
      unfold nth_candidate in *. simpl in *.
      replace (rng_pos s + Z.to_nat len + j * Z.to_nat len)%nat
        with (rng_pos s + (Z.to_nat len + j * Z.to_nat len))%nat by lia. done.
    + unfold nth_candidate in *. simpl in *.
      replace (rng_pos s + Z.to_nat len + k * Z.to_nat len)%nat
        with (rng_pos s + (Z.to_nat len + k * Z.to_nat len))%nat by lia. done.
Qed.

(** With every examined candidate rejected the fuel runs out. *)
Lemma generate_pin_loop_rejects rng len : forall fuel s,
  (forall j, (j < fuel)%nat ->
     pin_acceptable (nth_candidate rng (rng_pos s) (Z.to_nat len) j) = false) ->
  fst (generate_pin_loop rng fuel len s) = OutOfFuel.
Proof.
  induction fuel as [|fuel IH]; intros s Hrej; [done|].
  rewrite generate_pin_loop_step; cbv zeta.
  pose proof (Hrej O ltac:(lia)) as H0. unfold nth_candidate in H0.
  rewrite Nat.add_0_r in H0. rewrite H0. apply IH.
  intros j Hj. specialize (Hrej (S j) ltac:(lia)).
  unfold nth_candidate in *. simpl in *.
  replace (rng_pos s + Z.to_nat len + j * Z.to_nat len)%nat
    with (rng_pos s + (Z.to_nat len + j * Z.to_nat len))%nat by lia. done.
Qed.

(** What a returned PIN is: some candidate, all earlier ones rejected. *)
Lemma generate_pin_loop_returns rng len : forall fuel s p s',
  generate_pin_loop rng fuel len s = (Ret p, s') ->
  exists k, (k < fuel)%nat
    /\ p = string_of_list_ascii (nth_candidate rng (rng_pos s) (Z.to_nat len) k)
    /\ pin_acceptable (nth_candidate rng (rng_pos s) (Z.to_nat len) k) = true
    /\ (forall j, (j < k)%nat ->
          pin_acceptable (nth_candidate rng (rng_pos s) (Z.to_nat len) j) = false)
    /\ s' = advance_rng (S k * Z.to_nat len) s.
Proof.
  induction fuel as [|fuel IH]; intros s p s' H; [discriminate|].
  rewrite generate_pin_loop_step in H; cbv zeta in H.
  destruct (pin_acceptable (candidate rng (rng_pos s) (Z.to_nat len))) eqn:Hacc.
  - inversion H; subst. exists O. unfold nth_candidate. rewrite Nat.add_0_r.
    split; [lia|]. split; [done|]. split; [done|]. split; [intros j Hj; lia|].
    unfold advance_rng. f_equal. lia.
  - apply IH in H as (k & Hk & -> & Ha & Hrej & ->). exists (S k).
    assert (Hshift : forall j,
      nth_candidate rng (rng_pos (advance_rng (Z.to_nat len) s)) (Z.to_nat len) j
      = nth_candidate rng (rng_pos s) (Z.to_nat len) (S j)).
    { intros j. unfold nth_candidate; simpl. f_equal. lia. }
    rewrite Hshift in *.
    split; [lia|]. split; [done|]. split; [done|]. split.
    + intros [|j] Hj.
      * unfold nth_candidate. by rewrite Nat.add_0_r.
      * rewrite <- Hshift. apply Hrej. lia.
    + unfold advance_rng; simpl. f_equal. lia.
Qed.

(** [len(set(digits)) == 1] says: at least one digit, all of them equal. *)
Lemma len_set_1 (l : list ascii) :
  len_set l = 1%nat <-> exists c n, l = repeat c (S n).
Proof.
  unfold len_set. split.
  - intros H. apply size_1_elem_of in H as [c Hc].
    assert (Hall : forall x, x ∈ l -> x = c).
    { intros x Hx. apply (elem_of_list_to_set (C := gset ascii)) in Hx.
      rewrite Hc in Hx. by apply elem_of_singleton in Hx. }
    destruct l as [|a l].
    + exfalso. assert (Hin : c ∈ (list_to_set [] : gset ascii))
        by (rewrite Hc; by apply elem_of_singleton).
      by apply elem_of_list_to_set, elem_of_nil in Hin.
    + exists c, (length l). simpl. f_equal; [apply Hall; left|].
      assert (Hrest : forall x, x ∈ l -> x = c) by (intros x Hx; apply Hall; by right).
      clear -Hrest. induction l as [|b l IH]; simpl; [done|]. f_equal.
      * apply Hrest. left.
      * apply IH. intros x Hx. apply Hrest. by right.
  - intros (c & n & ->).
    assert ((list_to_set (repeat c (S n)) : gset ascii) = {[c]}) as ->.
    { apply set_eq. intros x. rewrite elem_of_list_to_set, elem_of_singleton.
      split.
      - intros Hx. apply list_elem_of_In in Hx. by apply repeat_spec in Hx.
      - intros ->. simpl. left. }
    apply size_singleton.
Qed.

Lemma pin_acceptable_true (l : list ascii) :
  pin_acceptable l = true <->
  (~ exists c n, l = repeat c (S n)) /\ string_of_list_ascii l ∉ disallowed_pins.
Proof.
  unfold pin_acceptable. rewrite andb_true_iff, !negb_true_iff.
  rewrite Nat.eqb_neq, bool_decide_eq_false, len_set_1. done.
Qed.

Lemma repeat_string_of_list (c : ascii) (n : nat) (p : string) :
  p = string_of_list_ascii (repeat c n) -> list_ascii_of_string p = repeat c n.
Proof. intros ->. apply list_ascii_of_string_of_list_ascii. Qed.

(** C5. Every PIN [generate_pin] returns has the configured length, is not
    one digit repeated, and is not on the denylist; it is one of the
    candidates drawn from the random source, returned as drawn, and every
    candidate drawn before it was rejected.  Conversely the first
    acceptable candidate is returned as soon as the fuel reaches it.  The
    configured length is taken non-negative. *)
Theorem generate_pin_policy (w : world) :
  0 <= randomPINLength (w_configs w) ->
  let n := Z.to_nat (randomPINLength (w_configs w)) in
  (forall fuel s p s',
     generate_pin w fuel s = (Ret p, s') ->
     Z.of_nat (String.length p) = randomPINLength (w_configs w)
     /\ (~ exists c k, p = string_of_list_ascii (repeat c (S k)))
     /\ (p ∉ disallowed_pins)
     /\ exists k, (k < fuel)%nat
          /\ p = string_of_list_ascii (nth_candidate (w_rng w) (rng_pos s) n k)
          /\ (forall j, (j < k)%nat ->
                pin_acceptable (nth_candidate (w_rng w) (rng_pos s) n j) = false)
          /\ s' = advance_rng (S k * n) s)
  /\ (forall s k fuel,
        (forall j, (j < k)%nat ->
           pin_acceptable (nth_candidate (w_rng w) (rng_pos s) n j) = false) ->
        pin_acceptable (nth_candidate (w_rng w) (rng_pos s) n k) = true ->
        (k < fuel)%nat ->
        generate_pin w fuel s =
        (Ret (string_of_list_ascii (nth_candidate (w_rng w) (rng_pos s) n k)),
         advance_rng (S k * n) s)).
Proof.
  intros Hlen n. split.
  - intros fuel s p s' H. unfold generate_pin in H.
    apply generate_pin_loop_returns in H as (k & Hk & Hp & Hacc & Hrej & Hs).
    fold n in Hp, Hacc, Hrej, Hs.
    apply pin_acceptable_true in Hacc as [Hrep Hdeny].
    split; [|split; [|split]].
    + rewrite Hp, string_of_list_ascii_length. unfold nth_candidate.
      rewrite candidate_length. unfold n. lia.
    + intros (c & m & Hc). apply Hrep. exists c, m.
      rewrite Hp in Hc.
      apply (f_equal list_ascii_of_string) in Hc.
      by rewrite !list_ascii_of_string_of_list_ascii in Hc.
    + by rewrite Hp.
    + by exists k.
  - intros s k fuel Hrej Hacc Hk. unfold generate_pin.
    by apply generate_pin_loop_first.
Qed.

Lemma candidate_digits rng n : forall pos,
  candidate rng pos n = map digit_char (map rng (seq pos n)).
Proof. induction n as [|n IH]; intros pos; simpl; [done | by rewrite IH]. Qed.

Lemma candidate_of_list (ds : list digit) : forall pre,
  candidate (rng_of_list (pre ++ ds)) (length pre) (length ds) = map digit_char ds.
Proof.
  induction ds as [|d ds IH]; intros pre; simpl; [done|].
  unfold rng_of_list at 1. rewrite list_lookup_middle by done. simpl. f_equal.
  specialize (IH (pre ++ [d])). rewrite length_app in IH. simpl in IH.
  rewrite <- app_assoc in IH. simpl in IH.
  by replace (length pre + 1)%nat with (S (length pre)) in IH by lia.
Qed.

Lemma pin_rejected_length_1 (l : list ascii) :
  length l = 1%nat -> pin_acceptable l = false.
Proof.
  intros Hl. destruct l as [|c [|? ?]]; try discriminate.
  unfold pin_acceptable.
  assert (len_set [c] = 1%nat) as -> by (apply len_set_1; by exists c, O).
  done.
Qed.

Lemma zero_one_acceptable (m : nat) :
  pin_acceptable (map digit_char (D0 :: D1 :: repeat D0 m)) = true.
Proof.
  apply pin_acceptable_true. split.
  - intros (c & k & H). simpl in H. destruct k as [|k]; simpl in H; [discriminate|].
    injection H as H0 H1 _. rewrite <- H0 in H1. discriminate.
  - simpl. unfold disallowed_pins. rewrite !elem_of_cons, elem_of_nil.
    intuition discriminate.
Qed.

(** C10. The loop of [generate_pin] can return, for some random source,
    exactly when some digit string of the configured length passes both
    checks.  For every configured length of at least 2 there is such a
    string; for length 1 every candidate is one repeated digit and is
    rejected, and the loop exhausts any fuel whatever the random source. *)
Theorem generate_pin_can_terminate (w : world) :
  let len := randomPINLength (w_configs w) in
  ((exists rng fuel s p s', generate_pin (with_rng w rng) fuel s = (Ret p, s'))
   <-> (exists ds : list digit,
          length ds = Z.to_nat len /\ pin_acceptable (map digit_char ds) = true))
  /\ (2 <= len ->
      exists ds : list digit,
        length ds = Z.to_nat len /\ pin_acceptable (map digit_char ds) = true)
  /\ (len = 1 ->
      (forall ds : list digit,
         length ds = Z.to_nat len -> pin_acceptable (map digit_char ds) = false)
      /\ (forall rng fuel s,
            fst (generate_pin (with_rng w rng) fuel s) = OutOfFuel)).
Proof.
  intros len. split; [split|split].
  - intros (rng & fuel & s & p & s' & H).
    unfold generate_pin, with_rng in H. cbn [w_rng w_configs] in H.
    apply generate_pin_loop_returns in H as (k & _ & _ & Hacc & _).
    unfold nth_candidate in Hacc. rewrite candidate_digits in Hacc.
    eexists. split; [|exact Hacc]. by rewrite length_map, length_seq.
  - intros (ds & Hlen & Hacc).
    exists (rng_of_list ds), 1%nat, (initial_state []).
    eexists. eexists. unfold generate_pin, with_rng. cbn [w_rng w_configs].
    fold len. rewrite (generate_pin_loop_step (rng_of_list ds) 0 len). cbv zeta.
    rewrite <- Hlen. cbn [initial_state rng_pos].
    pose proof (candidate_of_list ds []) as Hc. simpl in Hc.
    rewrite Hc, Hacc. done.
  - intros Hlen. exists (D0 :: D1 :: repeat D0 (Z.to_nat len - 2)). split.
    + simpl. rewrite repeat_length. lia.
    + apply zero_one_acceptable.
  - intros Hlen. split.
    + intros ds Hds. apply pin_rejected_length_1.
      rewrite length_map, Hds, Hlen. done.
    + intros rng fuel s. unfold generate_pin, with_rng. cbn [w_rng w_configs].
      fold len.
      apply generate_pin_loop_rejects. intros j _.
      apply pin_rejected_length_1. unfold nth_candidate.
      rewrite candidate_length, Hlen. done.
Qed.

Lemma generate_pin_policy_witness :
  Z.of_nat (String.length "407193") = 6 /\ "407193" ∉ disallowed_pins.
Proof.
  destruct (proj1 (generate_pin_policy
                     (demo_world (sample_configs true 6 false false) ∅)
                     ltac:(vm_compute; discriminate))
              3%nat (initial_state []) "407193"
              (advance_rng 18 (initial_state [])) ltac:(vm_compute; reflexivity))
    as (Hlen & _ & Hdeny & _).
  split; [exact Hlen | exact Hdeny].
Defined.

Lemma generate_pin_can_terminate_witness :
  (exists ds : list digit,
     length ds = 6%nat /\ pin_acceptable (map digit_char ds) = true)
  /\ fst (generate_pin
            (with_rng (demo_world (sample_configs true 1 false false) ∅)
                      three_candidates)
            5 (initial_state [])) = OutOfFuel.
Proof.
  split.
  - exact (proj1 (proj2 (generate_pin_can_terminate
                           (demo_world (sample_configs true 6 false false) ∅)))
             ltac:(vm_compute; discriminate)).
  - exact (proj2 (proj2 (proj2 (generate_pin_can_terminate
                                  (demo_world (sample_configs true 1 false false) ∅)))
                    eq_refl)
             three_candidates 5%nat (initial_state [])).
Defined.

(** ** Transport probe: the USB HID exchange *)

Lemma bind_ret {A B} (a : A) (k : A -> M B) (s : state) :
  (mret a ≫= k) s = k a s.
Proof. reflexivity. Qed.

Lemma bind_raise {A B} (e : exn) (k : A -> M B) (s : state) :
  (raise e ≫= k) s = (Raise e, s).
Proof. reflexivity. Qed.

Lemma bind_emit {B} (ev : event) (k : unit -> M B) (s : state) :
  (emit ev ≫= k) s = k tt (logged [ev] s).
Proof. reflexivity. Qed.

Lemma logged_logged evs1 evs2 s :
  logged evs2 (logged evs1 s) = logged (evs1 ++ evs2) s.
Proof. unfold logged; simpl. by rewrite app_assoc. Qed.

(** The size test can never fire: the size of the object is at least 33. *)
Lemma sys_getsizeof_not_below_17 (recv : bytes) : (sys_getsizeof recv <? 17) = false.
Proof. unfold sys_getsizeof. apply Z.ltb_ge. lia. Qed.

Lemma hid_exchange (c : Z) (p : nat) (recv : bytes) (s : state) :
  0 <= c < 2 ^ 32 ->
  thales_serial_number_hid c p (Reply tt) (Reply recv) s =
  read_thales_serial_hid c recv
    (logged [EvWritePacket (thales_request c p); EvReadPacket] s).
Proof.
  intros [H0 H1]. unfold thales_serial_number_hid, struct_pack_IBBBB.
  apply Z.leb_le in H0. apply Z.ltb_lt in H1. rewrite H0, H1.
  cbn [andb forallb].
  match goal with
  | |- context [if ?b then mret _ else raise StructError] => change b with true
  end.
  cbv iota. rewrite bind_ret, bind_emit. cbn [lift_reply]. rewrite bind_ret, bind_emit, bind_ret.
  rewrite logged_logged. reflexivity.
Qed.

Lemma read_hid_wrong_channel (c r : Z) (recv : bytes) (s : state) :
  unpack_I recv = Some r -> r <> c ->
  read_thales_serial_hid c recv s = (Raise (Exception "Wrong channel"), s).
Proof.
  intros Hu Hne. unfold read_thales_serial_hid, struct_unpack_from_I.
  rewrite Hu, bind_ret. apply Z.eqb_neq in Hne. by rewrite Hne.
Qed.

Lemma read_hid_status (c : Z) (recv : bytes) (b7 b8 : byte) (s : state) :
  unpack_I recv = Some c -> recv !! 7%nat = Some b7 -> recv !! 8%nat = Some b8 ->
  read_thales_serial_hid c recv s =
  if (byte_val b7 =? 0) && (byte_val b8 =? 2)
  then decode_utf8 (take 8 (drop 9 recv)) s
  else (Raise (Exception "Unable to get Thales Serial Number"), s).
Proof.
  intros Hu H7 H8. unfold read_thales_serial_hid, struct_unpack_from_I, bytes_index.
  rewrite Hu, bind_ret, Z.eqb_refl, H7, H8. cbn [negb]. rewrite bind_ret.
  destruct (byte_val b7 =? 0); cbn [negb andb]; [|done].
  cbv [mbind M_bind mret M_ret]. destruct (byte_val b8 =? 2); cbn [negb]; [|done].
  by rewrite sys_getsizeof_not_below_17.
Qed.

Lemma read_hid_index_error (c : Z) (recv : bytes) (s : state) :
  unpack_I recv = Some c ->
  recv !! 7%nat = None \/ (recv !! 7%nat = Some x00 /\ recv !! 8%nat = None) ->
  read_thales_serial_hid c recv s = (Raise IndexError, s).
Proof.
  intros Hu H. unfold read_thales_serial_hid, struct_unpack_from_I, bytes_index.
  rewrite Hu, bind_ret, Z.eqb_refl. cbn [negb].
  destruct H as [H7 | [H7 H8]]; rewrite H7; [done|].
  rewrite bind_ret. cbn [byte_val Byte.to_N Z.of_N Z.eqb negb].
  cbv [mbind M_bind]. by rewrite H8.
Qed.

(** A well-formed response of 17 bytes or more: the serial is the text
    of bytes 9 to 16. *)
Lemma read_hid_serial (c : Z) (recv : bytes) (s : state) :
  unpack_I recv = Some c ->
  recv !! 7%nat = Some x00 -> recv !! 8%nat = Some x02 ->
  (17 <= length recv)%nat ->
  valid_utf8 (take 8 (drop 9 recv)) = true ->
  read_thales_serial_hid c recv s
  = (Ret (string_of_list_byte (take 8 (drop 9 recv))), s)
  /\ length (take 8 (drop 9 recv)) = 8%nat.
Proof.
  intros Hu H7 H8 Hlen Hval. split.
  - rewrite (read_hid_status c recv x00 x02 s Hu H7 H8).
    cbn [byte_val Byte.to_N Z.of_N Z.eqb andb]. change (2 =? 2) with true. cbv iota.
    unfold decode_utf8. by rewrite Hval.
  - rewrite length_take, length_drop. lia.
Qed.

(** C2. A response of 12 bytes whose channel identifier and status bytes
    match is not refused: the size test compares the size of the object,
    which is never below 17, and the serial is decoded from the 3 bytes
    the slice finds. *)
Theorem hid_short_response_not_refused :
  let recv := hid_answer [x41; x42; x43] in
  let dev := sample_device (sample_hid recv) ∅ in
  length recv = 12%nat
  /\ unpack_I recv = Some 0x01020304
  /\ recv !! 7%nat = Some x00 /\ recv !! 8%nat = Some x02
  /\ (sys_getsizeof recv <? 17) = false
  /\ fst (get_thales_serial_number dev (initial_state [])) = Ret "ABC".
Proof. cbv zeta. repeat split; vm_compute; reflexivity. Qed.

(** C9. The status bytes are read with no test of the length before
    them: when a response shorter than 9 bytes echoes the right channel
    identifier (and its byte 7, if it has one, is 0), reading index 7 or
    index 8 is out of range and the function ends with [IndexError], not
    with one of its own errors. *)
Theorem hid_status_read_unguarded (dev : device) (c : Z) (p : nat)
    (recv : bytes) (s : state) :
  dev_transport dev = CtapHid c p (Reply tt) (Reply recv) ->
  0 <= c < 2 ^ 32 ->
  unpack_I recv = Some c ->
  (length recv < 9)%nat ->
  (forall b, recv !! 7%nat = Some b -> b = x00) ->
  (recv !! 7%nat = None \/ recv !! 8%nat = None)
  /\ get_thales_serial_number dev s =
     (Raise IndexError,
      logged [EvWritePacket (thales_request c p); EvReadPacket] s).
Proof.
  intros Ht Hc Hu Hlen H7.
  assert (H8 : recv !! 8%nat = None) by (apply lookup_ge_None; lia).
  split; [by right|].
  unfold get_thales_serial_number. rewrite Ht, hid_exchange by done.
  apply read_hid_index_error; [done|].
  destruct (recv !! 7%nat) as [b|] eqn:E; [right | by left].
  by rewrite (H7 b eq_refl).
Qed.

Lemma hid_status_read_unguarded_witness :
  get_thales_serial_number
    (sample_device (sample_hid [x01; x02; x03; x04; xd0; x00; x0a]) ∅)
    (initial_state [])
  = (Raise IndexError,
     logged [EvWritePacket (thales_request 0x01020304 64); EvReadPacket]
       (initial_state [])).
Proof.
  refine (proj2 (hid_status_read_unguarded
            (sample_device (sample_hid [x01; x02; x03; x04; xd0; x00; x0a]) ∅)
            0x01020304 64 [x01; x02; x03; x04; xd0; x00; x0a] (initial_state [])
            eq_refl _ eq_refl _ _)).
  - lia.
  - simpl. lia.
  - intros b Hb. discriminate Hb.
Defined.

(** ** Transport probe: the contactless exchange *)

(** The [try] block returns or raises; it neither exits nor loops. *)
Lemma nfc_try_outcome (cm gd : reply apdu_response) (s : state) :
  (exists v, fst (thales_serial_number_nfc_try cm gd s) = Ret v)
  \/ (exists e, fst (thales_serial_number_nfc_try cm gd s) = Raise e).
Proof.
  unfold thales_serial_number_nfc_try, apdu_exchange, decode_utf8.
  cbv [mbind M_bind mret M_ret raise emit lift_reply].
  destruct cm as [[[r1 a1] b1]|e1]; cbn [fst snd]; [|right; by eexists].
  destruct (sw_differs a1 b1); [right; by eexists|].
  destruct gd as [[[r2 a2] b2]|e2]; cbn [fst snd]; [|right; by eexists].
  destruct (sw_differs a2 b2); [right; by eexists|].
  destruct (valid_utf8 (drop 3 r2)); [left | right]; by eexists.
Qed.

Ltac one_apdu := eexists (cons _ nil); reflexivity.
Ltac two_apdus :=
  eexists (cons _ (cons _ nil)); unfold logged;
  cbn [pin keyboard rng_pos log map]; rewrite <- app_assoc; reflexivity.

(** The [try] block never calls [_select]: it logs APDU exchanges only. *)
Lemma nfc_try_log (cm gd : reply apdu_response) (s : state) :
  exists apdus, snd (thales_serial_number_nfc_try cm gd s)
                = logged (map EvApduExchange apdus) s.
Proof.
  unfold thales_serial_number_nfc_try, apdu_exchange, decode_utf8.
  cbv [mbind M_bind mret M_ret raise emit lift_reply].
  destruct cm as [[[r1 a1] b1]|e1]; cbn [fst snd]; [|one_apdu].
  destruct (sw_differs a1 b1); [one_apdu|].
  destruct gd as [[[r2 a2] b2]|e2]; cbn [fst snd]; [|two_apdus].
  destruct (sw_differs a2 b2); [two_apdus|].
  destruct (valid_utf8 (drop 3 r2)); two_apdus.
Qed.

Lemma nfc_try_raises_on_fault (cm gd : reply apdu_response) (s : state) :
  (forall e, cm = Fault e ->
     fst (thales_serial_number_nfc_try cm gd s) = Raise e)
  /\ (forall r a b, cm = Reply (r, a, b) -> (a, b) <> SW_SUCCESS ->
        fst (thales_serial_number_nfc_try cm gd s)
        = Raise (Exception "Card Manager applet selection failure."))
  /\ (forall r e, cm = Reply (r, 0x90, 0x00) -> gd = Fault e ->
        fst (thales_serial_number_nfc_try cm gd s) = Raise e)
  /\ (forall r r' a b, cm = Reply (r, 0x90, 0x00) -> gd = Reply (r', a, b) ->
        (a, b) <> SW_SUCCESS ->
        fst (thales_serial_number_nfc_try cm gd s)
        = Raise (Exception "Unable to get Thales serial number.")).
Proof.
  assert (Hsw : forall a b, (a, b) <> SW_SUCCESS -> sw_differs a b = true).
  { intros a b H. unfold sw_differs, SW_SUCCESS in *. cbn [fst snd].
    apply negb_true_iff, andb_false_iff.
    destruct (Z.eqb_spec a 0x90) as [->|]; [|by left].
    destruct (Z.eqb_spec b 0x00) as [->|]; [by destruct H | by right]. }
  unfold thales_serial_number_nfc_try, apdu_exchange.
  cbv [mbind M_bind mret M_ret raise emit lift_reply].
  repeat split.
  - by intros e ->.
  - intros r a b -> H. cbn [fst snd]. by rewrite (Hsw _ _ H).
  - by intros r e -> ->.
  - intros r r' a b -> -> H. cbn [fst snd]. change (sw_differs 144 0) with false.
    cbv iota. by rewrite (Hsw _ _ H).
Qed.

(** The claim of C6 as worded fails when the cleanup raises too: the
    card is gone, the selection of the card manager fails, and so does the
    re-selection in the [finally] block, whose error leaves the function. *)
Lemma nfc_cleanup_error_propagates :
  ~ (forall (dev : device) cm gd sel (s : state) (e : exn),
       dev_transport dev = CtapPcsc cm gd sel ->
       fst (thales_serial_number_nfc_try cm gd s) = Raise e ->
       fst (get_thales_serial_number dev s) = Ret "").
Proof.
  intros H.
  specialize (H (sample_device
                   (CtapPcsc (Fault (LibraryError "card removed"))
                             (Fault (LibraryError "card removed"))
                             (Fault (LibraryError "card removed"))) ∅)
                _ _ _ (initial_state []) _ eq_refl eq_refl).
  discriminate H.
Qed.

(** C6 (amended). On the contactless path the re-selection [_select]
    is called exactly once, after the exchanges of the [try] block, on
    every path.  An exception raised by the applet selection or the
    get-data exchange never leaves the function: when the re-selection
    returns, the function returns the empty serial; when the
    re-selection raises, it is that error which leaves the function.  A
    serial decoded without error is returned as it is. *)
Theorem nfc_errors_caught_cleanup_always (dev : device)
    (cm gd : reply apdu_response) (sel : reply unit) (s : state) :
  dev_transport dev = CtapPcsc cm gd sel ->
  let attempt := thales_serial_number_nfc_try cm gd s in
  let result := get_thales_serial_number dev s in
  snd result = logged [EvSelect] (snd attempt)
  /\ (exists apdus, snd attempt = logged (map EvApduExchange apdus) s)
  /\ (forall e, fst attempt = Raise e ->
        fst result = match sel with Reply _ => Ret "" | Fault e' => Raise e' end)
  /\ (forall v, fst attempt = Ret v ->
        fst result = match sel with Reply _ => Ret v | Fault e' => Raise e' end).
Proof.
  intros Ht attempt result.
  assert (Hresult : result =
    match sel with
    | Reply _ => (Ret match fst attempt with Ret v => v | _ => "" end,
                  logged [EvSelect] (snd attempt))
    | Fault e' => (Raise e', logged [EvSelect] (snd attempt))
    end).
  { unfold result, get_thales_serial_number. rewrite Ht.
    unfold try_except_finally, device_select. fold attempt.
    destruct (nfc_try_outcome cm gd s) as [[v Hv] | [e He]];
      fold attempt in Hv || fold attempt in He;
      destruct attempt as [r s1]; cbn [fst snd] in *; subst r;
      cbv [mbind M_bind emit lift_reply mret M_ret raise];
      by destruct sel. }
  split; [|split; [|split]].
  - rewrite Hresult. by destruct sel.
  - apply nfc_try_log.
  - intros e He. rewrite Hresult, He. by destruct sel.
  - intros v Hv. rewrite Hresult, Hv. by destruct sel.
Qed.

Lemma nfc_errors_caught_cleanup_always_witness :
  fst (get_thales_serial_number
         (sample_device
            (CtapPcsc (Reply ([], 0x6a, 0x82)) (Reply ([], 0x90, 0x00)) (Reply tt)) ∅)
         (initial_state [])) = Ret "".
Proof.
  exact (proj1 (proj2 (proj2 (nfc_errors_caught_cleanup_always
    (sample_device
       (CtapPcsc (Reply ([], 0x6a, 0x82)) (Reply ([], 0x90, 0x00)) (Reply tt)) ∅)
    _ _ _ (initial_state []) eq_refl)))
    (Exception "Card Manager applet selection failure.") eq_refl).
Defined.

(** ** PIN manager *)

(** C7. With [setRandomPIN] configured and a device that reports
    [clientPin], [generate_and_set_pin] ends in [SystemExit] and leaves the
    state as it found it: the global [pin] is not assigned, nothing is
    drawn from the random source, and no command ([set_pin] included) is
    sent to the device.  Nothing sequenced after the call runs, and the
    [except Exception] handler of [main] does not intercept the exit: the
    loop of [main] ends with [SystemExit] at that entry, writes no row for
    it and looks at no later row. *)
Theorem random_pin_refused_when_pin_set (w : world) (fuel : nat) (dev : device)
    (options : gmap string bool) (s : state) :
  setRandomPIN (w_configs w) = true ->
  dev_info dev = Reply options ->
  options !! "clientPin" = Some true ->
  generate_and_set_pin w fuel dev s = (SysExit None, s)
  /\ (forall (B : Type) (k : unit -> M B),
        (generate_and_set_pin w fuel dev ≫= k) s = (SysExit None, s))
  /\ (forall handler : exn -> M unit,
        try_except_Exception (generate_and_set_pin w fuel dev) handler s
        = (SysExit None, s))
  /\ (forall tok lc user dn uid ch exp rp rest out s0 s1 serial,
        use_windows_client w = false ->
        (0 < lc)%nat ->
        wait_device (w_entry w lc) (logged [EvProcessingUser user] s0)
        = (Ret dev, s1) ->
        get_serial_number (w_entry w lc) dev s1 = (Ret serial, s) ->
        main_loop w fuel tok lc ([user; dn; uid; ch; exp; rp] :: rest) out s0
        = (SysExit None, out, s)).
Proof.
  intros Hcfg Hinfo Hopt.
  assert (H : generate_and_set_pin w fuel dev s = (SysExit None, s)).
  { unfold generate_and_set_pin, Ctap2, option_set.
    rewrite Hcfg, Hinfo. cbn [lift_reply]. rewrite bind_ret, Hopt. reflexivity. }
  split; [exact H|]. split; [|split].
  - intros B k. cbv [mbind M_bind]. by rewrite H.
  - intros handler. unfold try_except_Exception. by rewrite H.
  - intros tok lc user dn uid ch exp rp rest out s0 s1 serial Hwin Hlc Hwait Hser.
    cbn [main_loop]. destruct (Nat.eqb_spec lc 0) as [->|_]; [lia|].
    unfold process_row, row_index. cbn [lookup list_lookup].
    rewrite !bind_ret, bind_emit.
    unfold try_except_Exception, register_and_activate,
      create_credentials_on_security_key.
    cbv [mbind M_bind]. rewrite Hwait, Hser, Hwin, H. reflexivity.
Qed.

Lemma random_pin_refused_when_pin_set_witness :
  generate_and_set_pin
    (demo_world (sample_configs true 6 false false) {["clientPin" := true]})
    3 (thales_key {["clientPin" := true]}) (initial_state [])
  = (SysExit None, initial_state []).
Proof.
  refine (proj1 (random_pin_refused_when_pin_set
                   (demo_world (sample_configs true 6 false false)
                               {["clientPin" := true]})
                   3 (thales_key {["clientPin" := true]})
                   {["clientPin" := true]} (initial_state [])
                   eq_refl eq_refl _)).
  vm_compute. reflexivity.
Defined.

(** ** Registration ceremony *)

Lemma base64url_to_bytearray_pure (w : world) (text : string) (s s' : state) (b : bytes) :
  base64url_to_bytearray w text s = (Ret b, s') ->
  s' = s /\ forall s0, base64url_to_bytearray w text s0 = (Ret b, s0).
Proof.
  unfold base64url_to_bytearray. destruct (w_urlsafe_b64decode w _); cbn [lift_reply].
  - intros H. inversion H; subst. by split.
  - discriminate.
Qed.

(** C8. Whatever the entry, the options [build_creation_options]
    returns have the same fixed part: resident key required,
    cross-platform attachment, user verification required, the algorithms
    ES256 (-7) then RS256 (-257), attestation "direct", no excluded
    credentials, the hmacCreateSecret extension, and the credential
    protection policy OPTIONAL, which is level 1, the lowest.  The
    challenge and the user id are the decoded arguments; display name,
    user name and relying-party id are the arguments themselves.  The
    function returns as soon as both arguments decode. *)
Theorem build_creation_options_fixed (w : world)
    (challenge userId displayName name rp_id : string) (s : state) :
  (forall o s',
     build_creation_options w challenge userId displayName name rp_id s = (Ret o, s') ->
     s' = s
     /\ co_requireResidentKey o = true
     /\ co_authenticatorAttachment o = "cross-platform"
     /\ co_userVerification o = "required"
     /\ co_pubKeyCredParams o = [("public-key", -7); ("public-key", -257)]
     /\ co_attestation o = "direct"
     /\ co_excludeCredentials o = []
     /\ co_hmacCreateSecret o = true
     /\ co_enforceCredentialProtectionPolicy o = true
     /\ co_credentialProtectionPolicy o = OPTIONAL
     /\ policy_level (co_credentialProtectionPolicy o) = 1
     /\ (forall p, policy_level (co_credentialProtectionPolicy o) <= policy_level p)
     /\ co_timeout o = 0
     /\ co_rp_name o = "Microsoft"
     /\ base64url_to_bytearray w challenge s = (Ret (co_challenge o), s)
     /\ base64url_to_bytearray w userId s = (Ret (co_user_id o), s)
     /\ co_user_displayName o = displayName
     /\ co_user_name o = name
     /\ co_rp_id o = rp_id)
  /\ (forall c u,
        base64url_to_bytearray w challenge s = (Ret c, s) ->
        base64url_to_bytearray w userId s = (Ret u, s) ->
        exists o,
          build_creation_options w challenge userId displayName name rp_id s
          = (Ret o, s)).
Proof.
  split.
  - intros o s' H. unfold build_creation_options in H.
    cbv [mbind M_bind] in H.
    destruct (base64url_to_bytearray w challenge s) as [[c| | |] s1] eqn:Hc;
      try discriminate.
    apply base64url_to_bytearray_pure in Hc as [-> Hc].
    destruct (base64url_to_bytearray w userId s) as [[u| | |] s2] eqn:Hu;
      try discriminate.
    apply base64url_to_bytearray_pure in Hu as [-> Hu].
    inversion H; subst; cbn.
    repeat match goal with |- _ /\ _ => split end;
      first [reflexivity | apply Hc | apply Hu | intros []; cbn; lia].
  - intros c u Hc Hu. unfold build_creation_options. cbv [mbind M_bind].
    rewrite Hc, Hu. by eexists.
Qed.

Lemma build_creation_options_fixed_witness :
  exists o,
    build_creation_options
      (demo_world (sample_configs true 6 false false) ∅)
      "Y2hhbGxlbmdl" "dXNlci0x" "Alice" "alice@contoso.com" "login.microsoft.com"
      (initial_state [])
    = (Ret o, initial_state []).
Proof.
  exact (proj2 (build_creation_options_fixed
                  (demo_world (sample_configs true 6 false false) ∅)
                  "Y2hhbGxlbmdl" "dXNlci0x" "Alice" "alice@contoso.com"
                  "login.microsoft.com" (initial_state []))
           [x01; x02; x03] [x01; x02; x03] eq_refl eq_refl).
Defined.

(** ** Activation client and batch orchestrator *)

Lemma pin_logged evs s : pin (logged evs s) = pin s.
Proof. reflexivity. Qed.

(** The activation call, read off its answer: one request is logged, and
    the result depends on the status code alone unless it is 201. *)
Lemma create_and_activate_result (w : world) (ew : entry_world)
    (credential_id client_extensions user_name attestation client_data : string)
    (serial_number : pyval) (access_token : string) (s : state)
    (extensions : pyval) (response : http_response) :
  ew_extensions_json ew = Reply extensions ->
  ew_activation ew = Reply response ->
  exists endpoint body,
    create_and_activate_fido_method w ew credential_id client_extensions
      user_name attestation client_data serial_number access_token s
    = (if status_code response =? 201 then
         match json response with
         | Reply (PyDict d) =>
             match assoc_lookup "id" d with
             | Some id => Ret (true, id)
             | None => Raise (KeyError "id")
             end
         | Reply _ => Raise TypeError
         | Fault e => Raise e
         end
       else Ret (false, PyList []),
       logged [EvHttpPost endpoint (set_http_headers access_token) body] s).
Proof.
  intros Hext Hact. unfold create_and_activate_fido_method.
  rewrite Hext, Hact. cbn [lift_reply]. rewrite bind_ret, bind_emit, bind_ret.
  do 2 eexists. destruct (status_code response =? 201); [|reflexivity].
  destruct (json response) as [v|e]; cbn [lift_reply]; [|reflexivity].
  rewrite bind_ret. unfold py_getitem.
  destruct v; try reflexivity.
  destruct (assoc_lookup "id" d); reflexivity.
Qed.

(** The [try] block: the ceremony, then the activation; the flag
    [activated] is dropped. *)
Lemma register_and_activate_unfold (w : world) (ew : entry_world) (fuel : nat)
    (tok uid ch dn user rp : string) (s : state) :
  register_and_activate w ew fuel tok uid ch dn user rp s =
  match create_credentials_on_security_key w ew fuel uid ch dn user rp s with
  | (Ret (att, cd, cid, extn, serial), s1) =>
      match create_and_activate_fido_method w ew cid extn user att cd serial tok s1 with
      | (Ret (activated, auth_method), s2) => (Ret (auth_method, serial), s2)
      | (Raise e, s2) => (Raise e, s2)
      | (SysExit c, s2) => (SysExit c, s2)
      | (OutOfFuel, s2) => (OutOfFuel, s2)
      end
  | (Raise e, s1) => (Raise e, s1)
  | (SysExit c, s1) => (SysExit c, s1)
  | (OutOfFuel, s1) => (OutOfFuel, s1)
  end.
Proof.
  unfold register_and_activate. cbv [mbind M_bind].
  destruct (create_credentials_on_security_key _ _ _ _ _ _ _ _ s)
    as [[[[[[att cd] cid] extn] serial]| | |] s1]; try reflexivity.
  destruct (create_and_activate_fido_method _ _ _ _ _ _ _ _ _ s1)
    as [[[activated auth]| | |] s2]; reflexivity.
Qed.

(** One row of six cells: the user is announced, the [try] block runs,
    and the row to write carries the value of [pin] at that moment. *)
Lemma process_row_unfold (w : world) (fuel : nat) (tok : string) (lc : nat)
    (user dn uid ch exp rp : string) (s : state) :
  process_row w fuel tok lc [user; dn; uid; ch; exp; rp] s =
  match register_and_activate w (w_entry w lc) fuel tok uid ch dn user rp
          (logged [EvProcessingUser user] s) with
  | (Ret (auth_method, serial), s2) =>
      (Ret (Some [PyStr user; auth_method; serial; PyStr (pin s2)]), s2)
  | (Raise e, s2) => (Ret None, s2)
  | (SysExit c, s2) => (SysExit c, s2)
  | (OutOfFuel, s2) => (OutOfFuel, s2)
  end.
Proof.
  unfold process_row, row_index. cbn [lookup list_lookup].
  rewrite !bind_ret, bind_emit.
  unfold try_except_Exception. cbv [mbind M_bind mret M_ret get_pin].
  destruct (register_and_activate _ _ _ _ _ _ _ _ _ _)
    as [[[auth serial]| | |] s2]; reflexivity.
Qed.

(** What the activation call does with the answer.  It sends one
    request and no more.  On status 201 it returns success with the value
    under "id" of the JSON body.  On every other status it returns failure
    with no identifier; the flag is not read by [main], and the row then
    written for the entry carries the empty list in the place of the
    method identifier, whatever the body said. *)
Theorem activation_status_mapping (w : world) (ew : entry_world)
    (cid extn user att cd : string) (serial : pyval) (tok : string) (s : state)
    (extensions : pyval) (response : http_response) :
  ew_extensions_json ew = Reply extensions ->
  ew_activation ew = Reply response ->
  let call := create_and_activate_fido_method w ew cid extn user att cd serial tok in
  (exists endpoint body,
     snd (call s) = logged [EvHttpPost endpoint (set_http_headers tok) body] s)
  /\ (status_code response = 201 ->
      forall d id,
        json response = Reply (PyDict d) -> assoc_lookup "id" d = Some id ->
        fst (call s) = Ret (true, id))
  /\ (status_code response <> 201 ->
      fst (call s) = Ret (false, PyList [])
      /\ forall fuel lc dn uid ch exp rp s0,
           w_entry w lc = ew ->
           create_credentials_on_security_key w ew fuel uid ch dn user rp
             (logged [EvProcessingUser user] s0)
           = (Ret (att, cd, cid, extn, serial), s) ->
           fst (process_row w fuel tok lc [user; dn; uid; ch; exp; rp] s0)
           = Ret (Some [PyStr user; PyList []; serial; PyStr (pin s)])).
Proof.
  intros Hext Hact call.
  destruct (create_and_activate_result w ew cid extn user att cd serial tok s
              extensions response Hext Hact) as (endpoint & body & Hcall).
  fold call in Hcall. split; [|split].
  - exists endpoint, body. by rewrite Hcall.
  - intros H201 d id Hjson Hid. rewrite Hcall. cbn [fst].
    apply Z.eqb_eq in H201. by rewrite H201, Hjson, Hid.
  - intros Hne. apply Z.eqb_neq in Hne. rewrite Hne in Hcall. split.
    + by rewrite Hcall.
    + intros fuel lc dn uid ch exp rp s0 Hew Hcer.
      rewrite process_row_unfold, register_and_activate_unfold, Hew, Hcer.
      fold call. rewrite Hcall. reflexivity.
Qed.

Lemma activation_status_mapping_witness :
  fst (create_and_activate_fido_method
         (demo_world (sample_configs true 6 false false) ∅)
         (sample_entry (thales_key ∅) (Reply (http_created "abc123")))
         "Y3JlZC0wMDE" "eyJobWFjLXNlY3JldCI6IHRydWV9" "alice@contoso.com"
         "o2NmbXRmcGFja2Vk" "eyJ0eXBlIjoid2ViYXV0aG4uY3JlYXRlIn0"
         (PyStr "SN123456") "eyJ0eXAi" (initial_state []))
  = Ret (true, PyStr "abc123")
  /\ fst (create_and_activate_fido_method
            bad_request_world (w_entry bad_request_world 1)
            "Y3JlZC0wMDE" "eyJobWFjLXNlY3JldCI6IHRydWV9" "alice@contoso.com"
            "o2NmbXRmcGFja2Vk" "eyJ0eXBlIjoid2ViYXV0aG4uY3JlYXRlIn0"
            (PyStr "SN123456") "eyJ0eXAi"
            (snd (create_credentials_on_security_key bad_request_world
                    (w_entry bad_request_world 1) 3
                    "dXNlci0x" "Y2hhbGxlbmdl" "Alice" "alice@contoso.com"
                    "login.microsoft.com"
                    (logged [EvProcessingUser "alice@contoso.com"] (initial_state [])))))
     = Ret (false, PyList [])
  /\ fst (process_row bad_request_world 3 "eyJ0eXAi" 1
            (worklist_row "alice@contoso.com" "Alice") (initial_state []))
     = Ret (Some [PyStr "alice@contoso.com"; PyList []; PyStr "SN123456";
                  PyStr "407193"]).
Proof.
  split.
  - refine (proj1 (proj2 (activation_status_mapping
      (demo_world (sample_configs true 6 false false) ∅)
      (sample_entry (thales_key ∅) (Reply (http_created "abc123")))
      _ _ _ _ _ _ _ (initial_state []) _ (http_created "abc123")
      eq_refl eq_refl)) eq_refl _ (PyStr "abc123") eq_refl eq_refl).
  - pose proof (activation_status_mapping
      bad_request_world (w_entry bad_request_world 1)
      "Y3JlZC0wMDE" "eyJobWFjLXNlY3JldCI6IHRydWV9" "alice@contoso.com"
      "o2NmbXRmcGFja2Vk" "eyJ0eXBlIjoid2ViYXV0aG4uY3JlYXRlIn0"
      (PyStr "SN123456") "eyJ0eXAi"
      (snd (create_credentials_on_security_key bad_request_world
              (w_entry bad_request_world 1) 3
              "dXNlci0x" "Y2hhbGxlbmdl" "Alice" "alice@contoso.com"
              "login.microsoft.com"
              (logged [EvProcessingUser "alice@contoso.com"] (initial_state []))))
      _ http_bad_request eq_refl eq_refl) as (_ & _ & H400).
    destruct (H400 ltac:(vm_compute; discriminate)) as [Hcall Hrow].
    split; [exact Hcall|].
    exact (Hrow 3%nat 1%nat "Alice" "dXNlci0x" "Y2hhbGxlbmdl"
             "2024-05-01T12:00:00Z" "login.microsoft.com" (initial_state [])
             eq_refl ltac:(vm_compute; reflexivity)).
Defined.

(** The prefix of the worklist that the loop ran through without leaving
    [main]: the remaining rows are processed from the state reached. *)
Lemma main_loop_finished_app (w : world) (fuel : nat) (tok : string)
    (rest : list (list string)) :
  forall pre lc out s out1 s1,
    main_loop w fuel tok lc pre out s = (Ret Finished, out1, s1) ->
    main_loop w fuel tok lc (pre ++ rest) out s
    = main_loop w fuel tok (lc + length pre) rest out1 s1.
Proof.
  induction pre as [|row pre IH]; intros lc out s out1 s1 H; simpl in *.
  - inversion H; subst. by rewrite Nat.add_0_r.
  - replace (lc + S (length pre))%nat with (S lc + length pre)%nat by lia.
    destruct (Nat.eqb lc 0); [by apply IH|].
    destruct (process_row w fuel tok lc row s) as [[[written|]| | |] s0];
      try discriminate.
    by apply IH.
Qed.

(** Past the header, each row the loop runs through adds one row to the
    output and keeps those already there. *)
Lemma main_loop_finished_rows (w : world) (fuel : nat) (tok : string) :
  forall pre lc out s out1 s1,
    (1 <= lc)%nat ->
    main_loop w fuel tok lc pre out s = (Ret Finished, out1, s1) ->
    exists written, out1 = out ++ written /\ length written = length pre.
Proof.
  induction pre as [|row pre IH]; intros lc out s out1 s1 Hlc H; simpl in *.
  - inversion H; subst. exists []. by rewrite app_nil_r.
  - destruct (Nat.eqb_spec lc 0) as [->|_]; [lia|].
    destruct (process_row w fuel tok lc row s) as [[[r|]| | |] s0];
      try discriminate.
    apply IH in H as (written & -> & Hlen); [|lia].
    exists (r :: written). rewrite <- app_assoc. simpl. by rewrite Hlen.
Qed.

(** C4. When the [try] block of an entry raises, in the ceremony or in
    the activation call, [main] ends at once: with an [Exception] it
    returns, with [SystemExit] it exits.  Either way the state is the one
    in which the exception arose, whatever rows follow, so no later entry
    is touched; and the output holds the header and one row for each
    entry processed before, the rows written so far being kept. *)
Theorem batch_aborts_on_exception (w : world) (fuel : nat)
    (header : list string) (pre post : list (list string))
    (user dn uid ch exp rp : string)
    (s s0 s1 : state) (tok : string) (out1 : list out_row) :
  (warn_user_about_pin_behaviors w;; get_access_token_for_microsoft_graph w) s
  = (Ret tok, s0) ->
  main_loop w fuel tok 1 pre [header_row] s0 = (Ret Finished, out1, s1) ->
  let attempt :=
    register_and_activate w (w_entry w (S (length pre))) fuel tok uid ch dn user rp
      (logged [EvProcessingUser user] s1) in
  let run := main w fuel (header :: pre ++ [user; dn; uid; ch; exp; rp] :: post) s in
  (forall e, fst attempt = Raise e -> run = (Ret tt, out1, snd attempt))
  /\ (forall c, fst attempt = SysExit c -> run = (SysExit c, out1, snd attempt))
  /\ exists written, out1 = header_row :: written /\ length written = length pre.
Proof.
  intros Hpre Hloop attempt run.
  assert (Hrun : run =
    match process_row w fuel tok (S (length pre)) [user; dn; uid; ch; exp; rp] s1 with
    | (Ret (Some written), s2) =>
        match main_loop w fuel tok (S (S (length pre))) post (out1 ++ [written])
                (snd (input_enter s2)) with
        | (Ret _, out, s3) => (Ret tt, out, s3)
        | (Raise e, out, s3) => (Raise e, out, s3)
        | (SysExit c, out, s3) => (SysExit c, out, s3)
        | (OutOfFuel, out, s3) => (OutOfFuel, out, s3)
        end
    | (Ret None, s2) => (Ret tt, out1, s2)
    | (Raise e, s2) => (Raise e, out1, s2)
    | (SysExit c, s2) => (SysExit c, out1, s2)
    | (OutOfFuel, s2) => (OutOfFuel, out1, s2)
    end).
  { unfold run, main. rewrite Hpre. cbn [main_loop Nat.eqb].
    rewrite (main_loop_finished_app _ _ _ _ _ _ _ _ _ _ Hloop).
    cbn [main_loop Nat.add Nat.eqb].
    by destruct (process_row _ _ _ _ _ s1) as [[[r|]| | |] s2]. }
  rewrite process_row_unfold in Hrun. fold attempt in Hrun.
  split; [|split].
  - intros e He. destruct attempt as [r s2]; cbn [fst snd] in *. by subst r.
  - intros c Hc. destruct attempt as [r s2]; cbn [fst snd] in *. by subst r.
  - apply main_loop_finished_rows in Hloop as (written & -> & Hlen); [|lia].
    by exists written.
Qed.

Lemma batch_aborts_on_exception_witness :
  exists s2,
    main second_ceremony_fails 3
      [ worklist_header;
        worklist_row "alice@contoso.com" "Alice";
        worklist_row "bob@contoso.com" "Bob";
        worklist_row "carol@contoso.com" "Carol" ]
      (initial_state [])
    = (Ret tt,
       [ header_row;
         [PyStr "alice@contoso.com"; PyStr "abc123"; PyStr "SN123456"; PyStr "407193"] ],
       s2)
    /\ announced_users (log s2) = ["alice@contoso.com"; "bob@contoso.com"].
Proof.
  eexists. split.
  - refine (proj1 (batch_aborts_on_exception second_ceremony_fails 3
      worklist_header [worklist_row "alice@contoso.com" "Alice"]
      [worklist_row "carol@contoso.com" "Carol"]
      "bob@contoso.com" "Bob" _ _ _ _
      (initial_state []) _ _ _ _ _ _)
      (LibraryError "CTAP error: 0x27 - OPERATION_DENIED") _).
    + vm_compute. reflexivity.
    + vm_compute. reflexivity.
    + vm_compute. reflexivity.
  - vm_compute. reflexivity.
Defined.

(** The PIN typed for the client is handed over and not kept. *)
Lemma request_pin_keeps_global (w : world) (s : state) :
  pin (snd (request_pin w s)) = pin s.
Proof.
  unfold request_pin, getpass, get_pin.
  destruct (setRandomPIN (w_configs w)); cbn [negb]; [reflexivity|].
  by destruct (keyboard s).
Qed.

(** The PIN typed for the configuration step is assigned to the global. *)
Lemma set_ctap21_flags_keeps_typed_pin (w : world) (dev : device)
    (typed : string) (rest : list string) (s : state) :
  use_windows_client w = false ->
  setRandomPIN (w_configs w) = false ->
  keyboard s = typed :: rest ->
  pin (snd (set_ctap21_flags w dev s)) = typed.
Proof.
  intros Hwin Hrand Hkey. unfold set_ctap21_flags, getpass, Ctap2.
  rewrite Hwin, Hrand. cbn [negb].
  cbv [mbind M_bind mret M_ret set_global_pin get_pin emit lift_reply raise].
  rewrite Hkey.
  repeat first
    [ progress cbn [pin keyboard rng_pos log fst snd]
    | match goal with
      | |- context [match ?r with Reply _ => _ | Fault _ => _ end] => destruct r
      | |- context [if ?b then _ else _] => destruct b
      end ];
    reflexivity.
Qed.

(** C3. With [setRandomPIN] off and a minimum PIN length to set, the PIN
    the operator types at the second prompt is assigned to the global
    [pin] by [set_ctap21_flags], and [main] writes it in the PIN cell of
    the entry's row. *)
Theorem operator_pin_written_to_output (typed_first typed_second : string) :
  setRandomPIN (w_configs operator_pin_world) = false
  /\ snd (fst (main operator_pin_world 0
                 [worklist_header; worklist_row "alice@contoso.com" "Alice"]
                 (initial_state [typed_first; typed_second])))
     = [ header_row;
         [PyStr "alice@contoso.com"; PyStr "abc123"; PyStr "SN123456";
          PyStr typed_second] ].
Proof. split; vm_compute; reflexivity. Qed.

(** C1. On the worklist of two entries whose first activation is
    answered 400, the activation call returns failure with no identifier,
    but [main] never reads the flag: it writes a row for the refused
    entry like for any other, with the empty list in the place of the
    method identifier, asks the operator to go on, processes the second
    entry and returns normally.  The refused entry is not a failure of
    the entry in [main]. *)
Theorem refused_activation_recorded_and_batch_goes_on :
  status_code http_bad_request = 400
  /\ fst (create_and_activate_fido_method refused_then_created
            (w_entry refused_then_created 1)
            "Y3JlZC0wMDE" "eyJobWFjLXNlY3JldCI6IHRydWV9" "alice@contoso.com"
            "o2NmbXRmcGFja2Vk" "eyJ0eXBlIjoid2ViYXV0aG4uY3JlYXRlIn0"
            (PyStr "SN123456") "eyJ0eXAi" (initial_state []))
     = Ret (false, PyList [])
  /\ fst (main refused_then_created 3
            [ worklist_header;
              worklist_row "alice@contoso.com" "Alice";
              worklist_row "bob@contoso.com" "Bob" ]
            (initial_state []))
     = (Ret tt,
        [ header_row;
          [PyStr "alice@contoso.com"; PyList []; PyStr "SN123456"; PyStr "407193"];
          [PyStr "bob@contoso.com"; PyStr "def456"; PyStr "SN123456"; PyStr "407193"] ])
  /\ announced_users
       (log (snd (main refused_then_created 3
                    [ worklist_header;
                      worklist_row "alice@contoso.com" "Alice";
                      worklist_row "bob@contoso.com" "Bob" ]
                    (initial_state []))))
     = ["alice@contoso.com"; "bob@contoso.com"].
Proof. repeat split; vm_compute; reflexivity. Qed.

(** ** What the parts of the script leave alone *)

Section Frames.

Variable R : state -> state -> Prop.
Hypothesis R_refl : forall s, R s s.
Hypothesis R_trans : forall a b c, R a b -> R b c -> R a c.

Lemma respects_ret {A} (a : A) : respects R (mret a).
Proof. intros s. apply R_refl. Qed.

Lemma respects_raise {A} (e : exn) : respects R (raise (A := A) e).
Proof. intros s. apply R_refl. Qed.

Lemma respects_sys_exit {A} (c : option Z) : respects R (sys_exit (A := A) c).
Proof. intros s. apply R_refl. Qed.

Lemma respects_out_of_fuel {A} : respects R (out_of_fuel (A := A)).
Proof. intros s. apply R_refl. Qed.

Lemma respects_get_pin : respects R get_pin.
Proof. intros s. apply R_refl. Qed.

Lemma respects_lift_reply {A} (r : reply A) : respects R (lift_reply r).
Proof. intros s. destruct r; apply R_refl. Qed.

Lemma respects_bind {A B} (m : M A) (k : A -> M B) :
  respects R m -> (forall a, respects R (k a)) -> respects R (m ≫= k).
Proof.
  intros Hm Hk s. specialize (Hm s). cbv [mbind M_bind].
  destruct (m s) as [[a| | |] s1]; cbn [snd] in *; try exact Hm.
  eapply R_trans; [exact Hm | apply Hk].
Qed.

Lemma respects_try_except_Exception {A} (body : M A) (handler : exn -> M A) :
  respects R body -> (forall e, respects R (handler e)) ->
  respects R (try_except_Exception body handler).
Proof.
  intros Hb Hh s. specialize (Hb s). unfold try_except_Exception.
  destruct (body s) as [[a|e| |] s1]; cbn [snd] in *; try exact Hb.
  eapply R_trans; [exact Hb | apply Hh].
Qed.

Lemma respects_try_except_finally {A} (body : M A) (on_error : A) (cleanup : M unit) :
  respects R body -> respects R cleanup ->
  respects R (try_except_finally body on_error cleanup).
Proof.
  intros Hb Hc s. specialize (Hb s). unfold try_except_finally.
  destruct (body s) as [[a|e|c|] s1]; cbn [snd] in *; try exact Hb;
    specialize (Hc s1); destruct (cleanup s1) as [[[]| | |] s2]; cbn [snd] in *;
    eapply R_trans; eauto.
Qed.

Lemma respects_wait_device_loop (polls : list (list device)) :
  respects R (wait_device_loop polls).
Proof.
  induction polls as [|devices later IH]; intros s; simpl; [apply R_refl|].
  destruct devices as [|d [|d' ds]]; [apply IH | apply R_refl | apply R_refl].
Qed.

End Frames.

(** As [respects_bind], when what [m] returns is known to satisfy [P]. *)
Lemma respects_bind_post (R : state -> state -> Prop)
    (R_trans : forall a b c, R a b -> R b c -> R a c)
    {A B} (P : A -> Prop) (m : M A) (k : A -> M B) :
  respects R m ->
  (forall s a s1, m s = (Ret a, s1) -> P a) ->
  (forall a, P a -> respects R (k a)) ->
  respects R (m ≫= k).
Proof.
  intros Hm HP Hk s. specialize (Hm s). specialize (HP s). cbv [mbind M_bind].
  destruct (m s) as [[a| | |] s1]; cbn [snd] in *; try exact Hm.
  eapply R_trans; [exact Hm | apply Hk, (HP a s1 eq_refl)].
Qed.

Lemma respects_mono (R R' : state -> state -> Prop) {A} (m : M A) :
  (forall s s', R s s' -> R' s s') -> respects R m -> respects R' m.
Proof. intros H Hm s. apply H, Hm. Qed.

Lemma logged_nil s : logged [] s = s.
Proof. destruct s. unfold logged. simpl. by rewrite app_nil_r. Qed.

Lemma log_grew_refl s : log_grew s s.
Proof. exists []. by rewrite logged_nil. Qed.

Lemma log_grew_trans a b c : log_grew a b -> log_grew b c -> log_grew a c.
Proof. intros [e1 ->] [e2 ->]. exists (e1 ++ e2). apply logged_logged. Qed.

Lemma pin_kept_refl s : pin_kept s s.
Proof. split; [done|]. exists []. by rewrite app_nil_r. Qed.

Lemma pin_kept_trans a b c : pin_kept a b -> pin_kept b c -> pin_kept a c.
Proof.
  intros [Hp1 [e1 H1]] [Hp2 [e2 H2]]. split; [congruence|].
  exists (e1 ++ e2). by rewrite H2, H1, app_assoc.
Qed.

Lemma inputs_untouched_refl s : inputs_untouched s s.
Proof. by split. Qed.

Lemma inputs_untouched_trans a b c :
  inputs_untouched a b -> inputs_untouched b c -> inputs_untouched a c.
Proof. intros [? ?] [? ?]. split; congruence. Qed.

Lemma log_grew_pin_kept s s' : log_grew s s' -> pin_kept s s'.
Proof. intros [evs ->]. split; [done|]. by exists evs. Qed.

Lemma log_grew_inputs_untouched s s' : log_grew s s' -> inputs_untouched s s'.
Proof. intros [evs ->]. by split. Qed.

Lemma log_grew_emit ev : respects log_grew (emit ev).
Proof. intros s. by exists [ev]. Qed.

(** One step of a frame proof: [refl] and [trans] are the proofs that the
    relation is reflexive and transitive, [base] closes the calls that
    are particular to the relation. *)
Ltac frame_with refl trans base :=
  repeat first
    [ base
    | apply (respects_ret _ refl)
    | apply (respects_raise _ refl)
    | apply (respects_sys_exit _ refl)
    | apply (respects_out_of_fuel _ refl)
    | apply (respects_get_pin _ refl)
    | apply (respects_lift_reply _ refl)
    | apply (respects_wait_device_loop _ refl)
    | apply (respects_bind _ trans); [|intros]
    | apply (respects_try_except_Exception _ trans); [|intros]
    | apply (respects_try_except_finally _ trans)
    | progress unfold struct_unpack_from_I, bytes_index, decode_utf8,
        struct_pack_IBBBB, row_index, py_getitem, py_in_keys, apdu_exchange,
        device_select, Ctap2, input_enter, base64url_to_bytearray, wait_device
    | match goal with
      | |- respects _ (if ?b then _ else _) => destruct b
      | |- respects _ (match ?x with _ => _ end) => destruct x
      end ].

Ltac log_frame :=
  frame_with log_grew_refl log_grew_trans ltac:(apply log_grew_emit).

Lemma read_thales_serial_hid_pure (c : Z) (recv : bytes) (s : state) :
  snd (read_thales_serial_hid c recv s) = s.
Proof.
  assert (H : respects eq (read_thales_serial_hid c recv)).
  { unfold read_thales_serial_hid.
    frame_with (@eq_refl state) (@eq_trans state) fail. }
  symmetry. apply H.
Qed.

Lemma get_thales_serial_number_log (dev : device) :
  respects log_grew (get_thales_serial_number dev).
Proof.
  unfold get_thales_serial_number, thales_serial_number_hid,
    thales_serial_number_nfc_try, read_thales_serial_hid.
  log_frame.
Qed.

Lemma get_serial_number_log (ew : entry_world) (dev : device) :
  respects log_grew (get_serial_number ew dev).
Proof.
  unfold get_serial_number. log_frame. apply get_thales_serial_number_log.
Qed.

Lemma build_creation_options_pure (w : world) (ch uid dn name rp : string) (s : state) :
  snd (build_creation_options w ch uid dn name rp s) = s.
Proof.
  assert (H : respects eq (build_creation_options w ch uid dn name rp)).
  { unfold build_creation_options.
    frame_with (@eq_refl state) (@eq_trans state) fail. }
  symmetry. apply H.
Qed.

Lemma create_and_activate_log (w : world) (ew : entry_world)
    (cid extn user att cd : string) (serial : pyval) (tok : string) :
  respects log_grew
    (create_and_activate_fido_method w ew cid extn user att cd serial tok).
Proof. unfold create_and_activate_fido_method. cbv zeta. log_frame. Qed.

Lemma get_access_token_log (w : world) :
  respects log_grew (get_access_token_for_microsoft_graph w).
Proof. unfold get_access_token_for_microsoft_graph. log_frame. Qed.

Lemma warn_user_log (w : world) :
  respects log_grew (warn_user_about_pin_behaviors w).
Proof. unfold warn_user_about_pin_behaviors. log_frame. Qed.

(** ** Waiting for the key *)

(** X1. [wait_device_loop] returns a device exactly when, after some
    number of polls that found nothing, a poll found that device alone;
    later polls are not consulted and the state is untouched. *)
Theorem wait_device_loop_returns (polls : list (list device)) (d : device)
    (s s' : state) :
  wait_device_loop polls s = (Ret d, s')
  <-> s' = s /\ exists n later, polls = replicate n [] ++ [d] :: later.
Proof.
  split.
  - revert s s'. induction polls as [|devices later IH]; intros s s' H; simpl in H.
    + discriminate.
    + destruct devices as [|d0 [|d1 ds]].
      * apply IH in H as [-> (n & later' & ->)]. split; [done|].
        by exists (S n), later'.
      * inversion H; subst. split; [done|]. by exists O, later.
      * discriminate.
  - intros [-> (n & later & ->)]. induction n as [|n IH]; simpl; [done | exact IH].
Qed.

Lemma wait_device_loop_returns_witness :
  wait_device_loop [[]; []; [thales_key ∅]; []] (initial_state [])
  = (Ret (thales_key ∅), initial_state []).
Proof.
  apply (proj2 (wait_device_loop_returns _ _ _ _)).
  split; [reflexivity|]. exists 2%nat, [[]]. reflexivity.
Defined.

(** X2. When the first poll that finds anything finds more than one
    device, [wait_device_loop] raises "More than one device found." and
    picks none, whatever later polls would find. *)
Theorem wait_device_loop_ambiguous (n : nat) (d1 d2 : device) (ds : list device)
    (later : list (list device)) (s : state) :
  wait_device_loop (replicate n [] ++ (d1 :: d2 :: ds) :: later) s
  = (Raise (Exception "More than one device found."), s).
Proof. induction n as [|n IH]; simpl; [done | exact IH]. Qed.

(** ** The USB HID exchange, continued *)

Lemma byte_val_byte_of_Z (z : Z) : byte_val (byte_of_Z z) = z mod 256.
Proof.
  unfold byte_val, byte_of_Z.
  assert (Hr : 0 <= z mod 256 < 256) by (apply Z.mod_pos_bound; lia).
  destruct (Byte.of_N (Z.to_N (z mod 256))) as [b|] eqn:E.
  - apply Byte.to_of_N in E. rewrite E. lia.
  - apply Byte.of_N_None_iff in E. lia.
Qed.

Lemma unpack_I_thales_request (c : Z) (p : nat) :
  0 <= c < 2 ^ 32 -> unpack_I (thales_request c p) = Some c.
Proof.
  intros Hc. unfold thales_request, ljust, unpack_I. cbn [app].
  rewrite !byte_val_byte_of_Z. f_equal.
  change (2 ^ 24) with 16777216 in *. change (2 ^ 16) with 65536 in *.
  change (2 ^ 8) with 256 in *. change (2 ^ 32) with 4294967296 in *.
  Z.div_mod_to_equations. lia.
Qed.

(** X3. The command packet carries the channel identifier back out:
    for a channel identifier of 32 bits, the packet the function writes
    starts with the four bytes that [struct.unpack_from] reads as that
    identifier, goes on with d0 00 01 55, and is padded to the packet
    size; the function writes it once and reads once. *)
Theorem thales_request_packet (dev : device) (c : Z) (p : nat) (recv : bytes)
    (s : state) :
  dev_transport dev = CtapHid c p (Reply tt) (Reply recv) ->
  0 <= c < 2 ^ 32 ->
  snd (get_thales_serial_number dev s)
  = logged [EvWritePacket (thales_request c p); EvReadPacket] s
  /\ unpack_I (thales_request c p) = Some c
  /\ take 4 (drop 4 (thales_request c p)) = [xd0; x00; x01; x55]
  /\ length (thales_request c p) = Nat.max 8 p.
Proof.
  intros Ht Hc. split; [|split; [|split]].
  - unfold get_thales_serial_number. rewrite Ht, hid_exchange by done.
    apply read_thales_serial_hid_pure.
  - by apply unpack_I_thales_request.
  - reflexivity.
  - unfold thales_request, ljust. rewrite length_app, repeat_length. simpl. lia.
Qed.

Lemma thales_request_packet_witness :
  unpack_I (thales_request 0x01020304 64) = Some 0x01020304
  /\ length (thales_request 0x01020304 64) = 64%nat.
Proof.
  destruct (thales_request_packet (thales_key ∅) 0x01020304 64 _ (initial_state [])
              eq_refl ltac:(lia)) as (_ & Hu & _ & Hl).
  split; [exact Hu | exact Hl].
Defined.

(** X4. A channel identifier that does not fit 32 bits makes
    [struct.pack] fail: the function raises before anything is written to
    the device. *)
Theorem hid_channel_out_of_range (dev : device) (c : Z) (p : nat)
    (wr : reply unit) (rd : reply bytes) (s : state) :
  dev_transport dev = CtapHid c p wr rd ->
  c < 0 \/ 2 ^ 32 <= c ->
  get_thales_serial_number dev s = (Raise StructError, s).
Proof.
  intros Ht Hc. unfold get_thales_serial_number. rewrite Ht.
  unfold thales_serial_number_hid, struct_pack_IBBBB.
  assert ((0 <=? c) && (c <? 2 ^ 32) = false) as ->.
  { apply andb_false_iff. destruct Hc; [left; apply Z.leb_gt | right; apply Z.ltb_ge];
      lia. }
  reflexivity.
Qed.

Lemma hid_channel_out_of_range_witness :
  get_thales_serial_number
    (sample_device (CtapHid (-1) 64 (Reply tt) (Reply [])) ∅) (initial_state [])
  = (Raise StructError, initial_state []).
Proof.
  apply (hid_channel_out_of_range
           (sample_device (CtapHid (-1) 64 (Reply tt) (Reply [])) ∅)
           (-1) 64 (Reply tt) (Reply []) (initial_state []) eq_refl).
  left. lia.
Defined.

(** X5. The channel check: a response of fewer than 4 bytes makes
    [struct.unpack_from] fail, and a response that echoes another channel
    identifier is refused with "Wrong channel", whatever else it holds. *)
Theorem hid_channel_check (dev : device) (c : Z) (p : nat) (recv : bytes)
    (s : state) :
  dev_transport dev = CtapHid c p (Reply tt) (Reply recv) ->
  0 <= c < 2 ^ 32 ->
  ((length recv < 4)%nat ->
   fst (get_thales_serial_number dev s) = Raise StructError)
  /\ (forall r, unpack_I recv = Some r -> r <> c ->
      fst (get_thales_serial_number dev s) = Raise (Exception "Wrong channel")).
Proof.
  intros Ht Hc. unfold get_thales_serial_number. rewrite Ht, hid_exchange by done.
  split.
  - intros Hlen. unfold read_thales_serial_hid, struct_unpack_from_I.
    assert (unpack_I recv = None) as ->; [|reflexivity].
    destruct recv as [|? [|? [|? [|? ?]]]]; simpl in *; try reflexivity; lia.
  - intros r Hu Hne. by rewrite (read_hid_wrong_channel c r recv _ Hu Hne).
Qed.

Lemma hid_channel_check_witness :
  fst (get_thales_serial_number
         (sample_device
            (CtapHid 0x01020304 64 (Reply tt)
               (Reply [x0a; x0b; x0c; x0d; xd0; x00; x0a; x00; x02])) ∅)
         (initial_state []))
  = Raise (Exception "Wrong channel").
Proof.
  refine (proj2 (hid_channel_check
                   (sample_device
                      (CtapHid 0x01020304 64 (Reply tt)
                         (Reply [x0a; x0b; x0c; x0d; xd0; x00; x0a; x00; x02])) ∅)
                   0x01020304 64 _ (initial_state []) eq_refl ltac:(lia))
            0x0a0b0c0d eq_refl _).
  vm_compute. discriminate.
Defined.

(** X6. The status check: with the right channel identifier, a
    response whose byte 7 is not 0 is refused without looking at byte 8,
    and one whose byte 7 is 0 and byte 8 is not 2 is refused too, both
    with "Unable to get Thales Serial Number". *)
Theorem hid_status_check (dev : device) (c : Z) (p : nat) (recv : bytes)
    (s : state) :
  dev_transport dev = CtapHid c p (Reply tt) (Reply recv) ->
  0 <= c < 2 ^ 32 ->
  unpack_I recv = Some c ->
  (forall b7, recv !! 7%nat = Some b7 -> byte_val b7 <> 0 ->
     fst (get_thales_serial_number dev s)
     = Raise (Exception "Unable to get Thales Serial Number"))
  /\ (forall b8, recv !! 7%nat = Some x00 -> recv !! 8%nat = Some b8 ->
      byte_val b8 <> 2 ->
      fst (get_thales_serial_number dev s)
      = Raise (Exception "Unable to get Thales Serial Number")).
Proof.
  intros Ht Hc Hu. unfold get_thales_serial_number.
  rewrite Ht, hid_exchange by done. split.
  - intros b7 H7 Hne. unfold read_thales_serial_hid, struct_unpack_from_I, bytes_index.
    rewrite Hu, bind_ret, Z.eqb_refl, H7. cbn [negb]. rewrite bind_ret.
    apply Z.eqb_neq in Hne. rewrite Hne. reflexivity.
  - intros b8 H7 H8 Hne. rewrite (read_hid_status c recv x00 b8 _ Hu H7 H8).
    apply Z.eqb_neq in Hne. rewrite Hne, andb_false_r. reflexivity.
Qed.

Lemma hid_status_check_witness :
  fst (get_thales_serial_number
         (sample_device
            (sample_hid [x01; x02; x03; x04; xd0; x00; x0a; x01]) ∅)
         (initial_state []))
  = Raise (Exception "Unable to get Thales Serial Number").
Proof.
  refine (proj1 (hid_status_check
                   (sample_device
                      (sample_hid [x01; x02; x03; x04; xd0; x00; x0a; x01]) ∅)
                   0x01020304 64 _ (initial_state []) eq_refl ltac:(lia) eq_refl)
            x01 eq_refl _).
  vm_compute. discriminate.
Defined.

(** X7. A response with the right channel identifier and status bytes
    yields the text of its bytes 9 to 16 when these are well-formed UTF-8,
    and [UnicodeDecodeError] when they are not; bytes from index 17 on
    play no part. *)
Theorem hid_serial_decoded (dev : device) (c : Z) (p : nat) (recv : bytes)
    (s : state) :
  dev_transport dev = CtapHid c p (Reply tt) (Reply recv) ->
  0 <= c < 2 ^ 32 ->
  unpack_I recv = Some c ->
  recv !! 7%nat = Some x00 -> recv !! 8%nat = Some x02 ->
  fst (get_thales_serial_number dev s)
  = (if valid_utf8 (take 8 (drop 9 recv))
     then Ret (string_of_list_byte (take 8 (drop 9 recv)))
     else Raise UnicodeDecodeError)
  /\ take 8 (drop 9 recv) = take 8 (drop 9 (take 17 recv)).
Proof.
  intros Ht Hc Hu H7 H8. split.
  - unfold get_thales_serial_number. rewrite Ht, hid_exchange by done.
    rewrite (read_hid_status c recv x00 x02 _ Hu H7 H8).
    cbn [byte_val Byte.to_N Z.of_N Z.eqb andb]. change (2 =? 2) with true. cbv iota.
    unfold decode_utf8. by destruct (valid_utf8 _).
  - rewrite (skipn_firstn_comm 9 17 recv), take_take. reflexivity.
Qed.

Lemma hid_serial_decoded_witness :
  fst (get_thales_serial_number (thales_key ∅) (initial_state [])) = Ret "SN123456".
Proof.
  exact (proj1 (hid_serial_decoded (thales_key ∅) 0x01020304 64 _ (initial_state [])
                  eq_refl ltac:(lia) eq_refl eq_refl eq_refl)).
Defined.

(** ** The contactless exchange, continued *)

(** X8. When both exchanges answer with status 90 00 and the body of
    the second, past its first 3 bytes, is well-formed UTF-8, the
    function returns that text; it has sent the SELECT of the card
    manager, then GET DATA, then re-selected the FIDO applet, in that
    order and nothing else. *)
Theorem nfc_serial_decoded (dev : device) (r1 r2 : bytes) (s : state) :
  dev_transport dev
  = CtapPcsc (Reply (r1, 0x90, 0x00)) (Reply (r2, 0x90, 0x00)) (Reply tt) ->
  valid_utf8 (drop 3 r2) = true ->
  get_thales_serial_number dev s
  = (Ret (string_of_list_byte (drop 3 r2)),
     logged [EvApduExchange select_card_manager_apdu;
             EvApduExchange get_serial_apdu; EvSelect] s).
Proof.
  intros Ht Hv. unfold get_thales_serial_number. rewrite Ht.
  unfold try_except_finally, thales_serial_number_nfc_try, apdu_exchange,
    device_select, decode_utf8.
  cbv [mbind M_bind mret M_ret raise emit lift_reply]. cbn [fst snd].
  change (sw_differs 144 0) with false. cbv iota. rewrite Hv.
  unfold logged. cbn [pin keyboard rng_pos log]. rewrite <- !app_assoc. reflexivity.
Qed.

Lemma nfc_serial_decoded_witness :
  fst (get_thales_serial_number
         (sample_device
            (CtapPcsc (Reply ([], 0x90, 0x00))
                      (Reply ([x9f; x7f; x2a; x41; x42], 0x90, 0x00)) (Reply tt)) ∅)
         (initial_state []))
  = Ret "AB".
Proof.
  exact (f_equal fst
    (nfc_serial_decoded
       (sample_device
          (CtapPcsc (Reply ([], 0x90, 0x00))
                    (Reply ([x9f; x7f; x2a; x41; x42], 0x90, 0x00)) (Reply tt)) ∅)
       [] [x9f; x7f; x2a; x41; x42] (initial_state []) eq_refl eq_refl)).
Defined.

(** X9. When the selection of the card manager fails, by an exception
    or by a status other than 90 00, GET DATA is never sent: the only
    commands are the SELECT and the re-selection of the FIDO applet. *)
Theorem nfc_no_get_data_after_failed_select (dev : device)
    (cm gd : reply apdu_response) (sel : reply unit) (s : state) :
  dev_transport dev = CtapPcsc cm gd sel ->
  (forall r, cm <> Reply (r, 0x90, 0x00)) ->
  snd (get_thales_serial_number dev s)
  = logged [EvApduExchange select_card_manager_apdu; EvSelect] s.
Proof.
  intros Ht Hcm. unfold get_thales_serial_number. rewrite Ht.
  unfold try_except_finally, thales_serial_number_nfc_try, apdu_exchange,
    device_select.
  cbv [mbind M_bind mret M_ret raise emit lift_reply].
  destruct cm as [[[r a] b]|e]; cbn [fst snd].
  - assert (Hsw : sw_differs a b = true).
    { unfold sw_differs, SW_SUCCESS. cbn [fst snd].
      destruct (Z.eqb_spec a 0x90) as [->|]; [|reflexivity].
      destruct (Z.eqb_spec b 0x00) as [->|]; [|reflexivity].
      by destruct (Hcm r). }
    rewrite Hsw. destruct sel; unfold logged; cbn [pin keyboard rng_pos log snd];
      rewrite <- !app_assoc; reflexivity.
  - destruct sel; unfold logged; cbn [pin keyboard rng_pos log snd];
      rewrite <- !app_assoc; reflexivity.
Qed.

Lemma nfc_no_get_data_after_failed_select_witness :
  snd (get_thales_serial_number
         (sample_device
            (CtapPcsc (Reply ([], 0x6a, 0x82)) (Reply ([], 0x90, 0x00)) (Reply tt)) ∅)
         (initial_state []))
  = logged [EvApduExchange select_card_manager_apdu; EvSelect] (initial_state []).
Proof.
  refine (nfc_no_get_data_after_failed_select
            (sample_device
               (CtapPcsc (Reply ([], 0x6a, 0x82)) (Reply ([], 0x90, 0x00)) (Reply tt)) ∅)
            _ _ _ (initial_state []) eq_refl _).
  intros r H. discriminate H.
Defined.

(** X10. When [list_all_devices] lists any YubiKey, the serial of the
    first one listed is returned, [None] included; the device passed in
    plays no part and no exchange with it takes place. *)
Theorem get_serial_number_first_listed (ew : entry_world) (dev : device)
    (serial : option Z) (others : list (option Z)) (s : state) :
  ew_yubikeys ew = Reply (serial :: others) ->
  get_serial_number ew dev s
  = (Ret (match serial with Some n => PyInt n | None => PyNone end), s)
  /\ forall dev', get_serial_number ew dev' s = get_serial_number ew dev s.
Proof.
  intros H. unfold get_serial_number. rewrite H. cbn [lift_reply].
  rewrite !bind_ret. split; [reflexivity|]. intros dev'. by rewrite bind_ret.
Qed.

Lemma get_serial_number_first_listed_witness :
  get_serial_number
    {| ew_polls := []; ew_yubikeys := Reply [None; Some 12345678];
       ew_client_asks_pin := false; ew_make_credential := Reply sample_artifact;
       ew_extensions_json := Reply (PyDict []);
       ew_activation := Reply http_bad_request |}
    (thales_key ∅) (initial_state [])
  = (Ret PyNone, initial_state []).
Proof.
  exact (proj1 (get_serial_number_first_listed
    {| ew_polls := []; ew_yubikeys := Reply [None; Some 12345678];
       ew_client_asks_pin := false; ew_make_credential := Reply sample_artifact;
       ew_extensions_json := Reply (PyDict []);
       ew_activation := Reply http_bad_request |}
    (thales_key ∅) None [Some 12345678] (initial_state []) eq_refl)).
Defined.

(** ** PIN manager, continued *)

Lemma generate_pin_ret_state (w : world) (fuel : nat) (s s1 : state) (p : string) :
  generate_pin w fuel s = (Ret p, s1) ->
  pin s1 = pin s /\ keyboard s1 = keyboard s /\ log s1 = log s.
Proof.
  unfold generate_pin. intros H.
  apply generate_pin_loop_returns in H as (k & _ & _ & _ & _ & ->). done.
Qed.

(** X11. With [setRandomPIN] and a device without a PIN, the PIN that
    [generate_pin] returns is assigned to the global [pin] and then sent
    to the device with [set_pin]: the global holds it whether the device
    accepts it or raises, and in the second case the exception leaves the
    function. *)
Theorem generate_and_set_pin_sets_drawn_pin (w : world) (fuel : nat) (dev : device)
    (options : gmap string bool) (s s1 : state) (p : string) :
  setRandomPIN (w_configs w) = true ->
  dev_info dev = Reply options ->
  option_set options "clientPin" = false ->
  generate_pin w fuel s = (Ret p, s1) ->
  generate_and_set_pin w fuel dev s
  = (match dev_set_pin dev p with Reply _ => Ret tt | Fault e => Raise e end,
     {| pin := p; keyboard := keyboard s; rng_pos := rng_pos s1;
        log := log s ++ [EvSetPin p] |}).
Proof.
  intros Hrand Hinfo Hopt Hgen.
  destruct (generate_pin_ret_state _ _ _ _ _ Hgen) as (_ & Hk & Hl).
  unfold generate_and_set_pin, Ctap2. rewrite Hrand, Hinfo. cbn [lift_reply].
  rewrite bind_ret, Hopt. cbv [mbind M_bind]. rewrite Hgen.
  cbv [set_global_pin emit lift_reply mret M_ret raise].
  cbn [pin keyboard rng_pos log]. rewrite Hk, Hl.
  by destruct (dev_set_pin dev p) as [[]|e].
Qed.

Lemma generate_and_set_pin_sets_drawn_pin_witness :
  generate_and_set_pin (demo_world (sample_configs true 6 false false) ∅) 3
    (thales_key ∅) (initial_state [])
  = (Ret tt, {| pin := "407193"; keyboard := []; rng_pos := 18;
                log := [EvSetPin "407193"] |}).
Proof.
  exact (generate_and_set_pin_sets_drawn_pin
           (demo_world (sample_configs true 6 false false) ∅) 3 (thales_key ∅) ∅
           (initial_state []) (advance_rng 18 (initial_state [])) "407193"
           eq_refl eq_refl eq_refl ltac:(vm_compute; reflexivity)).
Defined.

(** X12. On the direct path with a generated PIN and a device that
    supports [setMinPINLength], the token is requested with the global
    [pin] and nobody is prompted; if the token request fails nothing is
    configured; if all commands succeed they are sent in the order token,
    minimum length, forced change, each of the last two only when it is
    configured. *)
Theorem set_ctap21_flags_with_generated_pin (w : world) (dev : device)
    (options : gmap string bool) (s : state) :
  use_windows_client w = false ->
  setRandomPIN (w_configs w) = true ->
  dev_info dev = Reply options ->
  option_set options "setMinPINLength" = true ->
  (forall e, dev_get_pin_token dev (pin s) = Fault e ->
     set_ctap21_flags w dev s = (Raise e, logged [EvGetPinToken (pin s)] s))
  /\ (dev_get_pin_token dev (pin s) = Reply tt ->
      dev_set_min_pin_length dev (minimumPINLength (w_configs w)) = Reply tt ->
      dev_force_change_pin dev = Reply tt ->
      set_ctap21_flags w dev s
      = (Ret tt,
         logged ([EvGetPinToken (pin s)]
                 ++ (if setMinimumPINLength (w_configs w)
                     then [EvSetMinPinLength (minimumPINLength (w_configs w))]
                     else [])
                 ++ (if setForceChangePin (w_configs w)
                     then [EvForceChangePin] else [])) s)).
Proof.
  intros Hwin Hrand Hinfo Hopt.
  unfold set_ctap21_flags, Ctap2. rewrite Hwin, Hrand, Hinfo. cbn [negb lift_reply].
  rewrite !bind_ret, Hopt.
  cbv [mbind M_bind get_pin emit lift_reply mret M_ret raise].
  cbn [pin keyboard rng_pos log]. split.
  - intros e ->. reflexivity.
  - intros -> -> ->.
    destruct (setMinimumPINLength (w_configs w)), (setForceChangePin (w_configs w));
      unfold logged; cbn [pin keyboard rng_pos log app];
      rewrite <- ?app_assoc; reflexivity.
Qed.

Lemma set_ctap21_flags_with_generated_pin_witness :
  set_ctap21_flags
    (demo_world (sample_configs true 6 true true) min_pin_options)
    (thales_key min_pin_options)
    {| pin := "407193"; keyboard := []; rng_pos := 18; log := [] |}
  = (Ret tt,
     {| pin := "407193"; keyboard := []; rng_pos := 18;
        log := [EvGetPinToken "407193"; EvSetMinPinLength 6; EvForceChangePin] |}).
Proof.
  exact (proj2 (set_ctap21_flags_with_generated_pin
                  (demo_world (sample_configs true 6 true true) min_pin_options)
                  (thales_key min_pin_options) min_pin_options
                  {| pin := "407193"; keyboard := []; rng_pos := 18; log := [] |}
                  eq_refl eq_refl eq_refl ltac:(vm_compute; reflexivity))
           eq_refl eq_refl eq_refl).
Defined.

(** X13. [set_ctap21_flags] sends nothing to the device when the
    Windows client is in use (it then does nothing at all) and when the
    device does not report [setMinPINLength]; in the second case an
    operator who uses his own PIN has been asked for it all the same. *)
Theorem set_ctap21_flags_sends_nothing (w : world) (dev : device) (s : state) :
  (use_windows_client w = true -> set_ctap21_flags w dev s = (Ret tt, s))
  /\ (forall options,
        use_windows_client w = false ->
        dev_info dev = Reply options ->
        option_set options "setMinPINLength" = false ->
        log (snd (set_ctap21_flags w dev s))
        = log s ++ (if setRandomPIN (w_configs w) then []
                    else [EvGetpass "Please enter the PIN:"])).
Proof.
  split.
  - intros Hwin. unfold set_ctap21_flags. by rewrite Hwin.
  - intros options Hwin Hinfo Hopt.
    unfold set_ctap21_flags, Ctap2, getpass. rewrite Hwin, Hinfo. cbn [negb lift_reply].
    cbv [mbind M_bind mret M_ret set_global_pin raise].
    destruct (setRandomPIN (w_configs w)); cbn [negb].
    + rewrite Hopt. cbn [snd]. by rewrite app_nil_r.
    + destruct (keyboard s); cbn [pin keyboard rng_pos log snd]; [reflexivity|].
      by rewrite Hopt.
Qed.

Lemma set_ctap21_flags_sends_nothing_witness :
  log (snd (set_ctap21_flags (demo_world (sample_configs false 6 true false) ∅)
              (thales_key ∅) (initial_state ["135790"])))
  = [EvGetpass "Please enter the PIN:"].
Proof.
  exact (proj2 (set_ctap21_flags_sends_nothing
                  (demo_world (sample_configs false 6 true false) ∅)
                  (thales_key ∅) (initial_state ["135790"]))
           ∅ eq_refl eq_refl eq_refl).
Defined.

(** ** The PIN on its way to the output *)

Lemma bind_inv_ret {A B} (m : M A) (k : A -> M B) (s s' : state) (b : B) :
  (m ≫= k) s = (Ret b, s') ->
  exists a s1, m s = (Ret a, s1) /\ k a s1 = (Ret b, s').
Proof.
  cbv [mbind M_bind]. destruct (m s) as [[a| | |] s1]; try discriminate.
  intros H. by exists a, s1.
Qed.

Lemma pin_kept_emit ev : respects pin_kept (emit ev).
Proof. apply (respects_mono log_grew); [apply log_grew_pin_kept | apply log_grew_emit]. Qed.

Lemma pin_kept_getpass prompt : respects pin_kept (getpass prompt).
Proof.
  intros s. unfold getpass. destruct (keyboard s); cbn [snd pin log];
    (split; [reflexivity | by eexists]).
Qed.

Lemma pin_kept_get_serial_number ew dev : respects pin_kept (get_serial_number ew dev).
Proof.
  apply (respects_mono log_grew); [apply log_grew_pin_kept | apply get_serial_number_log].
Qed.

Lemma pin_kept_create_and_activate w ew cid extn user att cd serial tok :
  respects pin_kept
    (create_and_activate_fido_method w ew cid extn user att cd serial tok).
Proof.
  apply (respects_mono log_grew); [apply log_grew_pin_kept | apply create_and_activate_log].
Qed.

Ltac pin_frame :=
  frame_with pin_kept_refl pin_kept_trans
    ltac:(first [ apply pin_kept_emit | apply pin_kept_getpass
                | apply pin_kept_get_serial_number
                | apply pin_kept_create_and_activate ]).

Lemma pin_kept_request_pin (w : world) : respects pin_kept (request_pin w).
Proof. unfold request_pin. pin_frame. Qed.

(** With a generated PIN, or with the Windows client, the configuration
    step reads the global [pin] and does not assign it. *)
Lemma pin_kept_set_ctap21_flags (w : world) (dev : device) :
  setRandomPIN (w_configs w) = true \/ use_windows_client w = true ->
  respects pin_kept (set_ctap21_flags w dev).
Proof.
  intros H. unfold set_ctap21_flags.
  destruct (use_windows_client w) eqn:Hwin; cbn [negb]; [pin_frame|].
  destruct H as [H|H]; [|discriminate]. rewrite H. cbn [negb]. pin_frame.
Qed.

Lemma pin_kept_build_creation_options w ch uid dn name rp :
  respects pin_kept (build_creation_options w ch uid dn name rp).
Proof. unfold build_creation_options. pin_frame. Qed.

Lemma generate_and_set_pin_ret (w : world) (fuel : nat) (dev : device) (s s' : state) :
  setRandomPIN (w_configs w) = true ->
  generate_and_set_pin w fuel dev s = (Ret tt, s') ->
  log s' = log s ++ [EvSetPin (pin s')] /\ keyboard s' = keyboard s.
Proof.
  intros Hrand. unfold generate_and_set_pin, Ctap2. rewrite Hrand.
  destruct (dev_info dev) as [options|e]; cbn [lift_reply]; [|discriminate].
  rewrite bind_ret. destruct (option_set options "clientPin"); [discriminate|].
  cbv [mbind M_bind].
  destruct (generate_pin w fuel s) as [[p| | |] s1] eqn:Hgen; try discriminate.
  destruct (generate_pin_ret_state _ _ _ _ _ Hgen) as (_ & Hk & Hl).
  cbv [set_global_pin emit lift_reply mret M_ret raise].
  destruct (dev_set_pin dev p) as [[]|e]; [|discriminate].
  intros H. inversion H; subst; cbn [pin keyboard log]. by rewrite Hl, Hk.
Qed.

(** The part of the ceremony after the PIN was set, on the direct path:
    it keeps the global [pin] when the PIN was generated. *)
Lemma ceremony_direct_ret (w : world) (ew : entry_world) (fuel : nat)
    (uid ch dn user rp : string) (s s' : state)
    (t : string * string * string * string * pyval) :
  use_windows_client w = false ->
  create_credentials_on_security_key w ew fuel uid ch dn user rp s = (Ret t, s') ->
  exists dev sb sc,
    wait_device ew s = (Ret dev, s)
    /\ log_grew s sb
    /\ generate_and_set_pin w fuel dev sb = (Ret tt, sc)
    /\ (setRandomPIN (w_configs w) = true
        \/ (setMinimumPINLength (w_configs w) = false
            /\ setForceChangePin (w_configs w) = false) ->
        pin_kept sc s').
Proof.
  intros Hwin H. unfold create_credentials_on_security_key in H. rewrite Hwin in H.
  apply bind_inv_ret in H as (dev & sa & Hwait & H).
  assert (sa = s) as ->.
  { pose proof (respects_wait_device_loop eq (@eq_refl state) (ew_polls ew) s) as Hp.
    unfold wait_device in Hwait. rewrite Hwait in Hp. by symmetry. }
  apply bind_inv_ret in H as (serial & sb & Hser & H).
  apply bind_inv_ret in H as (windows & sc' & Hbranch & H).
  apply bind_inv_ret in Hbranch as ([] & sc & Hgen & Hrk).
  exists dev, sb, sc. split; [exact Hwait|]. split.
  { pose proof (get_serial_number_log ew dev s) as Hl. by rewrite Hser in Hl. }
  split; [exact Hgen|]. intros Hcfg.
  assert (sc' = sc) as ->.
  { destruct (dev_info dev) as [options|e]; cbn [lift_reply] in Hrk; [|discriminate].
    rewrite bind_ret in Hrk. destruct (options !! "rk") as [[]|]; by inversion Hrk. }
  match type of H with
  | ?tail sc = _ => assert (Hf : respects pin_kept tail)
  end.
  { apply (respects_bind _ pin_kept_trans); [apply pin_kept_build_creation_options|].
    intros pkcco. apply (respects_bind _ pin_kept_trans); [apply pin_kept_emit|].
    intros _. apply (respects_bind _ pin_kept_trans).
    { destruct (negb windows && ew_client_asks_pin ew); [|pin_frame].
      apply (respects_bind _ pin_kept_trans); [apply pin_kept_request_pin|].
      intros given. apply pin_kept_emit. }
    intros _. apply (respects_bind _ pin_kept_trans); [pin_frame|].
    intros result. apply (respects_bind _ pin_kept_trans); [|intros; pin_frame].
    destruct Hcfg as [Hrand | [Hmin Hforce]].
    - destruct (_ || _); [|pin_frame]. apply pin_kept_set_ctap21_flags. by left.
    - rewrite Hmin, Hforce. cbn [orb]. pin_frame. }
  specialize (Hf sc). by rewrite H in Hf.
Qed.

(** A row is written only for a row of the worklist with six cells or
    more, and it is made of the user name, the two results of the [try]
    block, and the value of [pin] once the block is through. *)
Lemma process_row_some (w : world) (fuel : nat) (tok : string) (lc : nat)
    (row : list string) (s s' : state) (r : out_row) :
  process_row w fuel tok lc row s = (Ret (Some r), s') ->
  exists user dn uid ch exp rp rest auth serial,
    row = user :: dn :: uid :: ch :: exp :: rp :: rest
    /\ register_and_activate w (w_entry w lc) fuel tok uid ch dn user rp
         (logged [EvProcessingUser user] s) = (Ret (auth, serial), s')
    /\ r = [PyStr user; auth; serial; PyStr (pin s')].
Proof.
  intros H.
  destruct row as [|user [|dn [|uid [|ch [|exp [|rp rest]]]]]];
    try (unfold process_row, row_index in H; cbn [lookup list_lookup] in H;
         rewrite ?bind_ret in H; discriminate H).
  unfold process_row, row_index in H. cbn [lookup list_lookup] in H.
  rewrite !bind_ret, bind_emit in H.
  unfold try_except_Exception in H. cbv [mbind M_bind mret M_ret get_pin] in H.
  destruct (register_and_activate _ _ _ _ _ _ _ _ _ _)
    as [[[auth serial]| | |] s2] eqn:Hreg; try discriminate.
  inversion H; subst. by exists user, dn, uid, ch, exp, rp, rest, auth, serial.
Qed.

Lemma register_and_activate_ret (w : world) (ew : entry_world) (fuel : nat)
    (tok uid ch dn user rp : string) (s s' : state) (auth serial : pyval) :
  register_and_activate w ew fuel tok uid ch dn user rp s = (Ret (auth, serial), s') ->
  exists t s1,
    create_credentials_on_security_key w ew fuel uid ch dn user rp s = (Ret t, s1)
    /\ pin_kept s1 s'.
Proof.
  rewrite register_and_activate_unfold.
  destruct (create_credentials_on_security_key _ _ _ _ _ _ _ _ s)
    as [[[[[[att cd] cid] extn] serial0]| | |] s1] eqn:Hc; try discriminate.
  pose proof (pin_kept_create_and_activate w ew cid extn user att cd serial0 tok s1)
    as Hk.
  destruct (create_and_activate_fido_method _ _ _ _ _ _ _ _ _ s1)
    as [[[activated auth0]| | |] s2]; try discriminate.
  intros H. inversion H; subst. by eexists _, s1.
Qed.

(** X14. With a generated PIN on the direct path, the PIN cell of the
    row written for an entry holds the PIN that was sent to the device
    with [set_pin] while that entry was processed, which is also the value
    of the global [pin] when the row is written. *)
Theorem generated_pin_reaches_row (w : world) (fuel : nat) (tok : string)
    (lc : nat) (row : list string) (s s' : state) (r : out_row) :
  use_windows_client w = false ->
  setRandomPIN (w_configs w) = true ->
  process_row w fuel tok lc row s = (Ret (Some r), s') ->
  exists p before after,
    pin_cell r = Some (PyStr p)
    /\ pin s' = p
    /\ log s' = log s ++ before ++ EvSetPin p :: after.
Proof.
  intros Hwin Hrand H.
  apply process_row_some in H
    as (user & dn & uid & ch & exp & rp & rest & auth & serial & -> & Hreg & ->).
  apply register_and_activate_ret in Hreg as (t & s1 & Hcer & [Hp1 [e1 Hl1]]).
  apply (ceremony_direct_ret _ _ _ _ _ _ _ _ _ _ _ Hwin) in Hcer
    as (dev & sb & sc & _ & [e0 ->] & Hgen & Hkept).
  destruct (Hkept (or_introl Hrand)) as [Hp2 [e2 Hl2]].
  apply (generate_and_set_pin_ret _ _ _ _ _ Hrand) in Hgen as [Hl3 _].
  exists (pin s'), ([EvProcessingUser user] ++ e0), (e2 ++ e1).
  split; [reflexivity|]. split; [reflexivity|].
  rewrite Hl1, Hl2, Hl3, Hp2 in *. cbn [logged log]. rewrite Hp1.
  rewrite <- !app_assoc. reflexivity.
Qed.

Lemma generated_pin_reaches_row_witness :
  exists p before after,
    pin_cell [PyStr "alice@contoso.com"; PyStr "abc123"; PyStr "SN123456"; PyStr "407193"]
    = Some (PyStr p)
    /\ log (snd (process_row random_pin_world 3 "eyJ0eXAi" 1
                   (worklist_row "alice@contoso.com" "Alice") (initial_state [])))
       = log (initial_state []) ++ before ++ EvSetPin p :: after.
Proof.
  destruct (generated_pin_reaches_row random_pin_world 3 "eyJ0eXAi" 1
              (worklist_row "alice@contoso.com" "Alice") (initial_state [])
              (snd (process_row random_pin_world 3 "eyJ0eXAi" 1
                      (worklist_row "alice@contoso.com" "Alice") (initial_state [])))
              [PyStr "alice@contoso.com"; PyStr "abc123"; PyStr "SN123456";
               PyStr "407193"]
              eq_refl eq_refl ltac:(vm_compute; reflexivity))
    as (p & before & after & Hcell & _ & Hlog).
  exists p, before, after. split; [exact Hcell | exact Hlog].
Defined.

(** With the operator's own PIN and no flag to set, on the direct path,
    nothing in the processing of a row assigns the global [pin]. *)
Lemma process_row_pin_kept (w : world) (fuel : nat) (tok : string) (lc : nat)
    (row : list string) :
  use_windows_client w = false ->
  setRandomPIN (w_configs w) = false ->
  setMinimumPINLength (w_configs w) = false ->
  setForceChangePin (w_configs w) = false ->
  respects pin_kept (process_row w fuel tok lc row).
Proof.
  intros Hwin Hrand Hmin Hforce.
  unfold process_row, register_and_activate, create_credentials_on_security_key,
    generate_and_set_pin.
  destruct (use_windows_client w); [discriminate|].
  destruct (setRandomPIN (w_configs w)); [discriminate|].
  destruct (setMinimumPINLength (w_configs w)); [discriminate|].
  destruct (setForceChangePin (w_configs w)); [discriminate|].
  cbn [orb negb].
  frame_with pin_kept_refl pin_kept_trans
    ltac:(first [ apply pin_kept_emit | apply pin_kept_request_pin
                | apply pin_kept_get_serial_number
                | apply pin_kept_create_and_activate
                | apply pin_kept_build_creation_options ]).
Qed.

(** X15. With the operator's own PIN, no minimum length and no forced
    change to set, on the direct path, the batch never assigns the global
    [pin]: whatever the operator types at the PIN prompts, every row
    written carries in its PIN cell the value [pin] had when the batch
    began, the empty string of the script's start. *)
Theorem operator_pin_stays_out_without_flags (w : world) (fuel : nat)
    (tok : string) (rows : list (list string)) :
  use_windows_client w = false ->
  setRandomPIN (w_configs w) = false ->
  setMinimumPINLength (w_configs w) = false ->
  setForceChangePin (w_configs w) = false ->
  forall lc out s,
    pin (snd (main_loop w fuel tok lc rows out s)) = pin s
    /\ exists written,
         snd (fst (main_loop w fuel tok lc rows out s)) = out ++ written
         /\ Forall (fun r => pin_cell r = Some (PyStr (pin s))) written.
Proof.
  intros Hwin Hrand Hmin Hforce.
  induction rows as [|row rest IH]; intros lc out s; cbn [main_loop].
  - split; [reflexivity|]. exists []. by rewrite app_nil_r.
  - destruct (Nat.eqb lc 0); [apply IH|].
    pose proof (process_row_pin_kept w fuel tok lc row Hwin Hrand Hmin Hforce s)
      as [Hpin _].
    destruct (process_row w fuel tok lc row s) as [[[r|]| | |] s1] eqn:Hrow;
      cbn [fst snd] in *;
      try (split; [exact Hpin|]; exists []; by rewrite app_nil_r).
    destruct (IH (S lc) (out ++ [r]) (snd (input_enter s1)))
      as [Hp (written & Hout & Hall)].
    change (pin (snd (input_enter s1))) with (pin s1) in Hp, Hall.
    rewrite Hpin in Hp, Hall.
    split; [exact Hp|]. exists (r :: written). split.
    + rewrite Hout, <- app_assoc. reflexivity.
    + constructor; [|exact Hall].
      apply process_row_some in Hrow
        as (user & dn & uid & ch & exp & rp & more & auth & serial & _ & _ & ->).
      unfold pin_cell. cbn [lookup list_lookup]. by rewrite Hpin.
Qed.

Lemma operator_pin_stays_out_without_flags_witness :
  pin (snd (main_loop (demo_world (sample_configs false 6 false false) no_options)
              0 "eyJ0eXAi" 1
              [worklist_row "alice@contoso.com" "Alice"] [header_row]
              (initial_state ["864203"])))
  = "".
Proof.
  exact (proj1 (operator_pin_stays_out_without_flags
                  (demo_world (sample_configs false 6 false false) no_options)
                  0 "eyJ0eXAi" [worklist_row "alice@contoso.com" "Alice"]
                  eq_refl eq_refl eq_refl eq_refl 1%nat [header_row]
                  (initial_state ["864203"]))).
Defined.

(** ** The Windows client path *)

Lemma no_pin_traffic_refl s : no_pin_traffic s s.
Proof.
  split; [done|]. split; [done|]. exists []. by rewrite app_nil_r.
Qed.

Lemma no_pin_traffic_trans a b c :
  no_pin_traffic a b -> no_pin_traffic b c -> no_pin_traffic a c.
Proof.
  intros (Hk1 & Hr1 & e1 & Hl1 & Hf1) (Hk2 & Hr2 & e2 & Hl2 & Hf2).
  split; [congruence|]. split; [congruence|]. exists (e1 ++ e2).
  split; [by rewrite Hl2, Hl1, app_assoc | by apply Forall_app].
Qed.

Lemma no_pin_traffic_emit ev :
  is_pin_event ev = false -> respects no_pin_traffic (emit ev).
Proof.
  intros H s. split; [done|]. split; [done|]. exists [ev].
  split; [done | by constructor].
Qed.

Lemma no_pin_traffic_set_global_pin v : respects no_pin_traffic (set_global_pin v).
Proof.
  intros s. split; [done|]. split; [done|]. exists []. cbn. by rewrite app_nil_r.
Qed.

Ltac quiet_frame :=
  frame_with no_pin_traffic_refl no_pin_traffic_trans
    ltac:(first [ apply no_pin_traffic_emit; reflexivity
                | apply no_pin_traffic_set_global_pin ]).

(** The probe exchanges packets and APDUs; none of them carries a PIN. *)
Lemma no_pin_traffic_get_serial_number ew dev :
  respects no_pin_traffic (get_serial_number ew dev).
Proof.
  unfold get_serial_number, get_thales_serial_number, thales_serial_number_hid,
    thales_serial_number_nfc_try, read_thales_serial_hid.
  quiet_frame.
Qed.

(** X16. When the Windows client is in use, the ceremony generates no
    PIN, asks the operator for none, and sends the device no command that
    carries a PIN or changes its PIN policy, whatever the configuration
    asks for; when it returns, the global [pin] holds "n/a". *)
Theorem windows_client_leaves_pin_alone (w : world) (ew : entry_world)
    (fuel : nat) (uid ch dn user rp : string) :
  use_windows_client w = true ->
  respects no_pin_traffic
    (create_credentials_on_security_key w ew fuel uid ch dn user rp)
  /\ forall s t s',
       create_credentials_on_security_key w ew fuel uid ch dn user rp s = (Ret t, s') ->
       pin s' = "n/a".
Proof.
  intros Hwin. split.
  - unfold create_credentials_on_security_key, set_ctap21_flags.
    rewrite Hwin. cbn [negb].
    apply (respects_bind _ no_pin_traffic_trans); [quiet_frame|]. intros dev.
    apply (respects_bind _ no_pin_traffic_trans);
      [apply no_pin_traffic_get_serial_number|]. intros serial.
    apply (respects_bind_post _ no_pin_traffic_trans (fun b => b = true)).
    + quiet_frame.
    + intros s a s1 H. cbv [mbind M_bind set_global_pin mret M_ret] in H.
      by inversion H.
    + intros windows ->. cbn [negb andb]. unfold build_creation_options.
      quiet_frame.
  - intros s t s' H. unfold create_credentials_on_security_key in H.
    rewrite Hwin in H.
    apply bind_inv_ret in H as (dev & sa & _ & H).
    apply bind_inv_ret in H as (serial & sb & _ & H).
    apply bind_inv_ret in H as (windows & sc & Hbranch & H).
    cbv [mbind M_bind set_global_pin mret M_ret] in Hbranch.
    inversion Hbranch; subst windows sc. clear Hbranch. cbn [negb andb] in H.
    match type of H with
    | ?tail ?s1 = _ => assert (Hf : respects pin_kept tail)
    end.
    { apply (respects_bind _ pin_kept_trans); [apply pin_kept_build_creation_options|].
      intros pkcco. apply (respects_bind _ pin_kept_trans); [apply pin_kept_emit|].
      intros _. apply (respects_bind _ pin_kept_trans); [pin_frame|].
      intros _. apply (respects_bind _ pin_kept_trans); [pin_frame|].
      intros result. apply (respects_bind _ pin_kept_trans); [|intros; pin_frame].
      destruct (_ || _); [|pin_frame]. apply pin_kept_set_ctap21_flags. by right. }
    match type of H with
    | _ ?s1 = _ => specialize (Hf s1)
    end.
    rewrite H in Hf. cbn [snd] in Hf. destruct Hf as [Hp _]. by rewrite Hp.
Qed.

Lemma windows_client_leaves_pin_alone_witness :
  pin (snd (create_credentials_on_security_key
              (with_windows_client
                 (demo_world (sample_configs true 6 true true) min_pin_options))
              (sample_entry (thales_key min_pin_options) (Reply (http_created "abc123")))
              3 "dXNlci0x" "Y2hhbGxlbmdl" "Alice" "alice@contoso.com"
              "login.microsoft.com" (initial_state [])))
  = "n/a".
Proof.
  refine (proj2 (windows_client_leaves_pin_alone
                   (with_windows_client
                      (demo_world (sample_configs true 6 true true) min_pin_options))
                   (sample_entry (thales_key min_pin_options)
                                 (Reply (http_created "abc123")))
                   3 "dXNlci0x" "Y2hhbGxlbmdl" "Alice" "alice@contoso.com"
                   "login.microsoft.com" eq_refl)
            (initial_state []) _ _ _).
  vm_compute. reflexivity.
Defined.

(** ** The batch, continued *)

Lemma main_loop_appends (w : world) (fuel : nat) (tok : string) :
  forall rows lc out s,
    exists written,
      snd (fst (main_loop w fuel tok lc rows out s)) = out ++ written
      /\ (length written <= length rows)%nat
      /\ (lc = O -> length written <= pred (length rows))%nat.
Proof.
  induction rows as [|row rest IH]; intros lc out s; cbn [main_loop].
  - exists []. rewrite app_nil_r. repeat split; simpl; lia.
  - destruct (Nat.eqb_spec lc 0) as [->|Hlc].
    + destruct (IH 1%nat out s) as (written & Hout & Hlen & _).
      exists written. repeat split; simpl; try done; lia.
    + destruct (process_row w fuel tok lc row s) as [[[r|]| | |] s1];
        try (exists []; rewrite app_nil_r; repeat split; simpl; lia).
      destruct (IH (S lc) (out ++ [r]) (snd (input_enter s1)))
        as (written & Hout & Hlen & _).
      exists (r :: written). rewrite Hout, <- app_assoc.
      repeat split; simpl; try done; lia.
Qed.

(** X17. The output of [main] is empty when the token request does not
    return (the output file is opened after it); otherwise it starts with
    the header row, and holds after it at most one row per row of the
    worklist past the first. *)
Theorem main_output_shape (w : world) (fuel : nat) (rows : list (list string))
    (s : state) :
  match fst ((warn_user_about_pin_behaviors w
              ;; get_access_token_for_microsoft_graph w) s) with
  | Ret _ =>
      exists written,
        snd (fst (main w fuel rows s)) = header_row :: written
        /\ (length written <= pred (length rows))%nat
  | _ => snd (fst (main w fuel rows s)) = []
  end.
Proof.
  unfold main.
  destruct ((warn_user_about_pin_behaviors w
             ;; get_access_token_for_microsoft_graph w) s) as [[tok| | |] s0];
    cbn [fst]; try reflexivity.
  destruct (main_loop_appends w fuel tok rows 0%nat [header_row] s0)
    as (written & Hout & _ & Hlen).
  exists written. split; [|by apply Hlen].
  destruct (main_loop w fuel tok 0 rows [header_row] s0) as [[[]] ?];
    cbn [fst snd] in *; exact Hout.
Qed.

(** X18. The first row of the worklist is never read: replacing it by
    any other row, or running on the empty worklist instead of a worklist
    of one row, changes nothing, so a worklist without a header row loses
    its first entry. *)
Theorem first_row_never_read (w : world) (fuel : nat) (s : state) :
  (forall r r' rows, main w fuel (r :: rows) s = main w fuel (r' :: rows) s)
  /\ (forall r, main w fuel [r] s = main w fuel [] s).
Proof.
  split; intros; unfold main;
    destruct ((warn_user_about_pin_behaviors w
               ;; get_access_token_for_microsoft_graph w) s) as [[tok| | |] s0];
    reflexivity.
Qed.

(** X19. A row past the first with fewer than six cells makes the
    loop raise [IndexError] outside the [try] block: the exception leaves
    [main], the user is not announced, nothing is done for that row or
    the rows after it, and the rows written so far are kept. *)
Theorem short_row_escapes (w : world) (fuel : nat) (tok : string) (lc : nat)
    (row : list string) (rest : list (list string)) (out : list out_row)
    (s : state) :
  lc <> O ->
  (length row < 6)%nat ->
  main_loop w fuel tok lc (row :: rest) out s = (Raise IndexError, out, s).
Proof.
  intros Hlc Hlen. cbn [main_loop].
  destruct (Nat.eqb_spec lc 0) as [|_]; [done|].
  assert (H : process_row w fuel tok lc row s = (Raise IndexError, s)).
  { unfold process_row, row_index.
    destruct row as [|c0 [|c1 [|c2 [|c3 [|c4 [|c5 more]]]]]];
      cbn [lookup list_lookup]; rewrite ?bind_ret; try reflexivity.
    simpl in Hlen. lia. }
  by rewrite H.
Qed.

Lemma short_row_escapes_witness :
  main_loop random_pin_world 3 "eyJ0eXAi" 1
    [["alice@contoso.com"; "Alice"; "dXNlci0x"]; worklist_row "bob@contoso.com" "Bob"]
    [header_row] (initial_state [])
  = (Raise IndexError, [header_row], initial_state []).
Proof.
  apply short_row_escapes; [discriminate | simpl; lia].
Defined.

(** X20. When the loop runs through a stretch of the worklist past the
    header, it writes one row of four cells for each row of the stretch,
    in the order of the worklist, and each starts with the user name of
    its row. *)
Theorem rows_follow_worklist (w : world) (fuel : nat) (tok : string) :
  forall pre lc out s out1 s1,
    lc <> O ->
    main_loop w fuel tok lc pre out s = (Ret Finished, out1, s1) ->
    exists written,
      out1 = out ++ written
      /\ Forall2 (fun (row : list string) (r : out_row) =>
                    exists user, row !! 0%nat = Some user
                                 /\ first_cell r = Some (PyStr user)
                                 /\ length r = 4%nat)
                 pre written.
Proof.
  induction pre as [|row pre IH]; intros lc out s out1 s1 Hlc H; cbn [main_loop] in H.
  - inversion H; subst. exists []. rewrite app_nil_r. split; [done | constructor].
  - destruct (Nat.eqb_spec lc 0) as [|_]; [done|].
    destruct (process_row w fuel tok lc row s) as [[[r|]| | |] s0] eqn:Hrow;
      try discriminate.
    apply IH in H as (written & -> & Hall); [|done].
    apply process_row_some in Hrow
      as (user & dn & uid & ch & exp & rp & more & auth & serial & -> & _ & ->).
    eexists (_ :: written). rewrite <- app_assoc. split; [reflexivity|].
    constructor; [|exact Hall]. by exists user.
Qed.

Lemma rows_follow_worklist_witness :
  exists written,
    [ header_row;
      [PyStr "alice@contoso.com"; PyStr "abc123"; PyStr "SN123456"; PyStr "407193"] ]
    = [header_row] ++ written
    /\ length written = 1%nat.
Proof.
  destruct (rows_follow_worklist second_ceremony_fails 3 "eyJ0eXAi"
              [worklist_row "alice@contoso.com" "Alice"] 1 [header_row]
              (initial_state []) _ _ ltac:(discriminate)
              ltac:(vm_compute; reflexivity)) as (written & Hout & Hall).
  exists written. split; [exact Hout|].
  apply Forall2_length in Hall. by rewrite <- Hall.
Defined.

(** ** Before the batch: the warning and the token *)

(** X21. [warn_user_about_pin_behaviors] waits for the operator exactly
    once, except on Windows without administrator rights and with the
    operator's own PIN, where it says nothing and does not wait; it
    changes nothing else. *)
Theorem warn_user_pauses_once (w : world) (s : state) :
  warn_user_about_pin_behaviors w s
  = (Ret tt,
     logged (if use_windows_client w && negb (setRandomPIN (w_configs w))
             then [] else [EvInput]) s).
Proof.
  unfold warn_user_about_pin_behaviors, use_windows_client, input_enter.
  destruct (w_windows_client_available w), (w_is_user_an_admin w),
    (setRandomPIN (w_configs w)); cbn [negb andb];
    cbv [mbind M_bind mret M_ret emit]; rewrite ?logged_nil; reflexivity.
Qed.

Lemma get_access_token_unfold (w : world) (s : state) :
  exists endpoint,
    get_access_token_for_microsoft_graph w s
    = (match w_token w with
       | Fault e => Raise e
       | Reply tr =>
           match tr_decoded tr with
           | Fault e => Raise e
           | Reply (PyDict d) =>
               match assoc_lookup "error" d with
               | Some error =>
                   match assoc_lookup "error_description" d with
                   | Some description => Raise (ExceptionArgs [error; description])
                   | None => Raise (KeyError "error_description")
                   end
               | None =>
                   match tr_access_token_match tr with
                   | Some token => Ret token
                   | None => Raise AttributeError
                   end
               end
           | Reply _ => Raise AttributeError
           end
       end, logged [EvTokenPost endpoint] s).
Proof.
  unfold get_access_token_for_microsoft_graph. eexists. rewrite bind_emit.
  destruct (w_token w) as [tr|e]; cbn [lift_reply]; [|reflexivity].
  rewrite bind_ret.
  destruct (tr_decoded tr) as [v|e]; cbn [lift_reply]; [|reflexivity].
  rewrite bind_ret. unfold py_in_keys, py_getitem.
  destruct v; try reflexivity. rewrite bind_ret.
  destruct (assoc_lookup "error" d) as [error|] eqn:He.
  - rewrite bool_decide_eq_true_2 by eauto. rewrite bind_ret.
    destruct (assoc_lookup "error_description" d); reflexivity.
  - rewrite bool_decide_eq_false_2 by (intros [x Hx]; discriminate).
    destruct (tr_access_token_match tr); reflexivity.
Qed.

(** X22. When the token endpoint answers with an error and its
    description, [main] raises an exception made of the two, before the
    output file is opened and before any row is looked at: nothing is
    written and the only calls made are the pause of the warning and the
    token request.  A token matched in the same answer is ignored. *)
Theorem token_error_stops_before_batch (w : world) (fuel : nat)
    (rows : list (list string)) (s : state) (tr : token_response)
    (d : list (string * pyval)) (error description : pyval) :
  w_token w = Reply tr ->
  tr_decoded tr = Reply (PyDict d) ->
  assoc_lookup "error" d = Some error ->
  assoc_lookup "error_description" d = Some description ->
  exists endpoint,
    main w fuel rows s
    = (Raise (ExceptionArgs [error; description]), [],
       logged ((if use_windows_client w && negb (setRandomPIN (w_configs w))
                then [] else [EvInput]) ++ [EvTokenPost endpoint]) s).
Proof.
  intros Htok Hdec Herr Hdesc. unfold main. cbv [mbind M_bind].
  rewrite warn_user_pauses_once.
  match goal with
  | |- context [get_access_token_for_microsoft_graph w ?s0] =>
      destruct (get_access_token_unfold w s0) as (endpoint & ->)
  end.
  rewrite Htok, Hdec, Herr, Hdesc. exists endpoint.
  by rewrite logged_logged.
Qed.

Lemma token_error_stops_before_batch_witness :
  exists endpoint,
    main (with_token random_pin_world
            (Reply {| tr_access_token_match := None;
                      tr_decoded :=
                        Reply (PyDict [("error", PyStr "invalid_client");
                                       ("error_description", PyStr "AADSTS7000215")]) |}))
      3 [worklist_header; worklist_row "alice@contoso.com" "Alice"] (initial_state [])
    = (Raise (ExceptionArgs [PyStr "invalid_client"; PyStr "AADSTS7000215"]), [],
       logged ([EvInput] ++ [EvTokenPost endpoint]) (initial_state [])).
Proof.
  exact (token_error_stops_before_batch
           (with_token random_pin_world
              (Reply {| tr_access_token_match := None;
                        tr_decoded :=
                          Reply (PyDict [("error", PyStr "invalid_client");
                                         ("error_description", PyStr "AADSTS7000215")]) |}))
           3 [worklist_header; worklist_row "alice@contoso.com" "Alice"]
           (initial_state []) _ _ _ _ eq_refl eq_refl eq_refl eq_refl).
Defined.

(** X23. Two answers of the token endpoint that are not reported as
    they are: an error without description raises [KeyError] for the
    missing key instead of the error; an answer with no error key yields
    the matched token, and [AttributeError] when nothing was matched. *)
Theorem token_response_edge_cases (w : world) (s : state) (tr : token_response)
    (d : list (string * pyval)) :
  w_token w = Reply tr ->
  tr_decoded tr = Reply (PyDict d) ->
  (forall error,
     assoc_lookup "error" d = Some error ->
     assoc_lookup "error_description" d = None ->
     fst (get_access_token_for_microsoft_graph w s)
     = Raise (KeyError "error_description"))
  /\ (assoc_lookup "error" d = None ->
      fst (get_access_token_for_microsoft_graph w s)
      = match tr_access_token_match tr with
        | Some token => Ret token
        | None => Raise AttributeError
        end).
Proof.
  intros Htok Hdec. destruct (get_access_token_unfold w s) as (endpoint & ->).
  rewrite Htok, Hdec. cbn [fst]. split.
  - intros error -> ->. reflexivity.
  - intros ->. reflexivity.
Qed.

Lemma token_response_edge_cases_witness :
  fst (get_access_token_for_microsoft_graph
         (with_token random_pin_world
            (Reply {| tr_access_token_match := None;
                      tr_decoded := Reply (PyDict [("token_type", PyStr "Bearer")]) |}))
         (initial_state []))
  = Raise AttributeError.
Proof.
  exact (proj2 (token_response_edge_cases
                  (with_token random_pin_world
                     (Reply {| tr_access_token_match := None;
                               tr_decoded :=
                                 Reply (PyDict [("token_type", PyStr "Bearer")]) |}))
                  (initial_state []) _ _ eq_refl eq_refl) eq_refl).
Defined.

(** ** After the ceremony *)

(** X24. When the client-extension results cannot be read back as
    JSON, the activation raises before any request is sent: the entry
    ends in the state the ceremony left, with a credential on the key,
    nothing posted and no row, and [main] returns. *)
Theorem no_request_when_extensions_unreadable (w : world) (fuel : nat)
    (tok : string) (lc : nat) (user dn uid ch exp rp : string) (s s1 : state)
    (att cd cid extn : string) (serial : pyval) (e : exn) :
  create_credentials_on_security_key w (w_entry w lc) fuel uid ch dn user rp
    (logged [EvProcessingUser user] s) = (Ret (att, cd, cid, extn, serial), s1) ->
  ew_extensions_json (w_entry w lc) = Fault e ->
  process_row w fuel tok lc [user; dn; uid; ch; exp; rp] s = (Ret None, s1).
Proof.
  intros Hcer Hext.
  rewrite process_row_unfold, register_and_activate_unfold, Hcer.
  unfold create_and_activate_fido_method. rewrite Hext. reflexivity.
Qed.

Lemma no_request_when_extensions_unreadable_witness :
  process_row (with_entries random_pin_world (fun _ => unreadable_extensions_entry))
    3 "eyJ0eXAi" 1 (worklist_row "alice@contoso.com" "Alice") (initial_state [])
  = (Ret None,
     after_first_ceremony
       (with_entries random_pin_world (fun _ => unreadable_extensions_entry))).
Proof.
  exact (no_request_when_extensions_unreadable
           (with_entries random_pin_world (fun _ => unreadable_extensions_entry))
           3 "eyJ0eXAi" 1 "alice@contoso.com" "Alice" "dXNlci0x" "Y2hhbGxlbmdl"
           "2024-05-01T12:00:00Z" "login.microsoft.com" (initial_state []) _
           "o2NmbXRmcGFja2Vk" "eyJ0eXBlIjoid2ViYXV0aG4uY3JlYXRlIn0" "Y3JlZC0wMDE"
           "eyJobWFjLXNlY3JldCI6IHRydWV9" (PyStr "SN123456") _
           ltac:(vm_compute; reflexivity) eq_refl).
Defined.

(** X25. When the request itself raises, or the service answers 201
    with a body that is not a JSON object holding "id", the request has
    been sent but the entry ends in the exception handler: no row is
    written for it and [main] returns. *)
Theorem activation_exception_loses_row (w : world) (fuel : nat)
    (tok : string) (lc : nat) (user dn uid ch exp rp : string) (s s1 : state)
    (att cd cid extn : string) (serial extensions : pyval) :
  create_credentials_on_security_key w (w_entry w lc) fuel uid ch dn user rp
    (logged [EvProcessingUser user] s) = (Ret (att, cd, cid, extn, serial), s1) ->
  ew_extensions_json (w_entry w lc) = Reply extensions ->
  (forall e, ew_activation (w_entry w lc) = Fault e ->
     exists endpoint body,
       process_row w fuel tok lc [user; dn; uid; ch; exp; rp] s
       = (Ret None, logged [EvHttpPost endpoint (set_http_headers tok) body] s1))
  /\ (forall response,
        ew_activation (w_entry w lc) = Reply response ->
        status_code response = 201 ->
        (forall d id, json response = Reply (PyDict d) ->
                      assoc_lookup "id" d = Some id -> False) ->
        exists endpoint body,
          process_row w fuel tok lc [user; dn; uid; ch; exp; rp] s
          = (Ret None, logged [EvHttpPost endpoint (set_http_headers tok) body] s1)).
Proof.
  intros Hcer Hext. split.
  - intros e Hact. do 2 eexists.
    rewrite process_row_unfold, register_and_activate_unfold, Hcer.
    unfold create_and_activate_fido_method. rewrite Hext, Hact. cbn [lift_reply].
    rewrite bind_ret, bind_emit. reflexivity.
  - intros response Hact H201 Hnoid.
    destruct (create_and_activate_result w (w_entry w lc) cid extn user att cd
                serial tok s1 extensions response Hext Hact)
      as (endpoint & body & Hcall).
    exists endpoint, body.
    rewrite process_row_unfold, register_and_activate_unfold, Hcer, Hcall.
    apply Z.eqb_eq in H201. rewrite H201.
    destruct (json response) as [v|e]; [|reflexivity].
    destruct v; try reflexivity.
    destruct (assoc_lookup "id" d) as [id|] eqn:Hid; [|reflexivity].
    destruct (Hnoid d id eq_refl Hid).
Qed.

Lemma activation_exception_loses_row_witness :
  exists endpoint body,
    process_row
      (with_entries random_pin_world
         (fun _ => sample_entry (thales_key no_options) (Reply created_without_id)))
      3 "eyJ0eXAi" 1 (worklist_row "alice@contoso.com" "Alice") (initial_state [])
    = (Ret None,
       logged [EvHttpPost endpoint (set_http_headers "eyJ0eXAi") body]
         (after_first_ceremony
            (with_entries random_pin_world
               (fun _ => sample_entry (thales_key no_options)
                                      (Reply created_without_id))))).
Proof.
  refine (proj2 (activation_exception_loses_row
    (with_entries random_pin_world
       (fun _ => sample_entry (thales_key no_options) (Reply created_without_id)))
    3 "eyJ0eXAi" 1 "alice@contoso.com" "Alice" "dXNlci0x" "Y2hhbGxlbmdl"
    "2024-05-01T12:00:00Z" "login.microsoft.com" (initial_state []) _
    "o2NmbXRmcGFja2Vk" "eyJ0eXBlIjoid2ViYXV0aG4uY3JlYXRlIn0" "Y3JlZC0wMDE"
    "eyJobWFjLXNlY3JldCI6IHRydWV9" (PyStr "SN123456") _
    ltac:(vm_compute; reflexivity) eq_refl) created_without_id eq_refl eq_refl _).
  intros d id Hj Hid. inversion Hj; subst. discriminate Hid.
Defined.

(** X26. An answer of the service with a status other than 201 does
    not stop the batch: the row with the empty list in place of the
    method identifier is written, the operator is asked to press Enter,
    and the loop goes on with the next row. *)
Theorem rejected_activation_continues (w : world) (fuel : nat)
    (tok : string) (lc : nat) (user dn uid ch exp rp : string)
    (rest : list (list string)) (out : list out_row) (s s1 : state)
    (att cd cid extn : string) (serial extensions : pyval)
    (response : http_response) :
  lc <> O ->
  create_credentials_on_security_key w (w_entry w lc) fuel uid ch dn user rp
    (logged [EvProcessingUser user] s) = (Ret (att, cd, cid, extn, serial), s1) ->
  ew_extensions_json (w_entry w lc) = Reply extensions ->
  ew_activation (w_entry w lc) = Reply response ->
  status_code response <> 201 ->
  exists endpoint body,
    main_loop w fuel tok lc ([user; dn; uid; ch; exp; rp] :: rest) out s
    = main_loop w fuel tok (S lc) rest
        (out ++ [[PyStr user; PyList []; serial; PyStr (pin s1)]])
        (logged [EvHttpPost endpoint (set_http_headers tok) body; EvInput] s1).
Proof.
  intros Hlc Hcer Hext Hact Hne.
  destruct (create_and_activate_result w (w_entry w lc) cid extn user att cd
              serial tok s1 extensions response Hext Hact)
    as (endpoint & body & Hcall).
  exists endpoint, body. cbn [main_loop].
  destruct (Nat.eqb_spec lc 0) as [|_]; [done|].
  rewrite process_row_unfold, register_and_activate_unfold, Hcer, Hcall.
  apply Z.eqb_neq in Hne. rewrite Hne. cbn [input_enter emit snd pin logged].
  unfold logged. cbn [pin keyboard rng_pos log]. rewrite <- app_assoc. reflexivity.
Qed.

Lemma rejected_activation_continues_witness :
  snd (fst (main_loop bad_request_world 3 "eyJ0eXAi" 1
              [worklist_row "alice@contoso.com" "Alice"] [header_row]
              (initial_state [])))
  = [ header_row;
      [PyStr "alice@contoso.com"; PyList []; PyStr "SN123456"; PyStr "407193"] ].
Proof.
  destruct (rejected_activation_continues bad_request_world 3 "eyJ0eXAi" 1
              "alice@contoso.com" "Alice" "dXNlci0x" "Y2hhbGxlbmdl"
              "2024-05-01T12:00:00Z" "login.microsoft.com" [] [header_row]
              (initial_state []) (after_first_ceremony bad_request_world)
              "o2NmbXRmcGFja2Vk" "eyJ0eXBlIjoid2ViYXV0aG4uY3JlYXRlIn0" "Y3JlZC0wMDE"
              "eyJobWFjLXNlY3JldCI6IHRydWV9" (PyStr "SN123456") _ http_bad_request
              ltac:(discriminate) ltac:(vm_compute; reflexivity) eq_refl eq_refl
              ltac:(vm_compute; discriminate))
    as (endpoint & body & H).
  unfold worklist_row. rewrite H. reflexivity.
Defined.

(** X27. On the direct path, a key whose [info] reports [rk] as false
    ends the run with exit code 1 once the PIN step is through: no
    credential is requested, no row is written, no later row is looked at.
    With [setRandomPIN] the PIN has by then been set on the key. *)
Theorem no_resident_key_support_exits (w : world) (fuel : nat) (tok : string)
    (lc : nat) (user dn uid ch exp rp : string) (rest : list (list string))
    (out : list out_row) (s sb sc : state) (dev : device) (serial : pyval)
    (options : gmap string bool) :
  use_windows_client w = false ->
  lc <> O ->
  wait_device (w_entry w lc) (logged [EvProcessingUser user] s)
  = (Ret dev, logged [EvProcessingUser user] s) ->
  get_serial_number (w_entry w lc) dev (logged [EvProcessingUser user] s)
  = (Ret serial, sb) ->
  generate_and_set_pin w fuel dev sb = (Ret tt, sc) ->
  dev_info dev = Reply options ->
  options !! "rk" = Some false ->
  main_loop w fuel tok lc ([user; dn; uid; ch; exp; rp] :: rest) out s
  = (SysExit (Some 1), out, sc).
Proof.
  intros Hwin Hlc Hwait Hser Hgen Hinfo Hrk. cbn [main_loop].
  destruct (Nat.eqb_spec lc 0) as [|_]; [done|].
  rewrite process_row_unfold, register_and_activate_unfold.
  unfold create_credentials_on_security_key.
  cbv [mbind M_bind]. rewrite Hwait, Hser, Hwin, Hgen, Hinfo.
  cbn [lift_reply]. cbv [mret M_ret]. rewrite Hrk. reflexivity.
Qed.

Lemma no_resident_key_support_exits_witness :
  exists sc,
    main_loop
      (with_entries random_pin_world
         (fun _ => sample_entry (thales_key no_rk_options) (Reply (http_created "abc123"))))
      3 "eyJ0eXAi" 1
      [worklist_row "alice@contoso.com" "Alice"; worklist_row "bob@contoso.com" "Bob"]
      [header_row] (initial_state [])
    = (SysExit (Some 1), [header_row], sc)
    /\ In (EvSetPin "407193") (log sc).
Proof.
  eexists. split.
  - refine (no_resident_key_support_exits
      (with_entries random_pin_world
         (fun _ => sample_entry (thales_key no_rk_options)
                                (Reply (http_created "abc123"))))
      3 "eyJ0eXAi" 1 "alice@contoso.com" "Alice" "dXNlci0x" "Y2hhbGxlbmdl"
      "2024-05-01T12:00:00Z" "login.microsoft.com" _ [header_row] (initial_state [])
      _ _ (thales_key no_rk_options) (PyStr "SN123456") no_rk_options
      eq_refl ltac:(discriminate) _ _ _ eq_refl _).
    + vm_compute. reflexivity.
    + vm_compute. reflexivity.
    + vm_compute. reflexivity.
    + vm_compute. reflexivity.
  - vm_compute. tauto.
Defined.

(** ** Decoding the worklist's base64url fields *)

Lemma py_len_app (a b : string) : py_len (a +:+ b) = (py_len a + py_len b)%nat.
Proof.
  induction a as [|c a IH]; simpl; [done|].
  destruct (in_range 128 191 (byte_of_ascii c)); simpl; by rewrite IH.
Qed.

Lemma py_len_str_repeat (c : ascii) (n : nat) :
  in_range 128 191 (byte_of_ascii c) = false -> py_len (str_repeat c n) = n.
Proof. intros H. induction n as [|n IH]; simpl; [done|]. by rewrite H, IH. Qed.

Lemma py_len_str_replace (old new : ascii) (s : string) :
  in_range 128 191 (byte_of_ascii old) = false ->
  in_range 128 191 (byte_of_ascii new) = false ->
  py_len (str_replace old new s) = py_len s.
Proof.
  intros Ho Hn. induction s as [|c s IH]; simpl; [done|].
  destruct (Ascii.eqb_spec c old) as [->|_]; rewrite IH; [|done].
  by rewrite Ho, Hn.
Qed.

Lemma chars_app (a b : string) :
  list_ascii_of_string (a +:+ b) = list_ascii_of_string a ++ list_ascii_of_string b.
Proof. induction a as [|c a IH]; simpl; [done | by rewrite IH]. Qed.

Lemma chars_str_repeat (c d : ascii) (n : nat) :
  In c (list_ascii_of_string (str_repeat d n)) -> c = d.
Proof. induction n as [|n IH]; simpl; [done|]. intros [H|H]; [done | auto]. Qed.

Lemma chars_str_replace (c old new : ascii) (s : string) :
  In c (list_ascii_of_string (str_replace old new s)) ->
  c = new \/ (In c (list_ascii_of_string s) /\ c <> old).
Proof.
  induction s as [|x s IH]; simpl; [done|]. intros [H|H].
  - destruct (Ascii.eqb_spec x old) as [->|Hne]; [by left|].
    right. subst c. split; [by left | done].
  - destruct (IH H) as [?|[? ?]]; [by left|]. right. split; [by right | done].
Qed.

Lemma str_replace_twice (text : string) :
  str_replace "-" "+" (str_replace "_" "/" text)
  = string_of_list_ascii (map standard_alphabet (list_ascii_of_string text)).
Proof.
  induction text as [|c text IH]; simpl; [done|]. rewrite IH. f_equal.
  unfold standard_alphabet.
  destruct (Ascii.eqb_spec c "_") as [->|Hu]; [reflexivity|].
  by destruct (Ascii.eqb_spec c "-").
Qed.

Lemma standard_alphabet_id (l : list ascii) :
  ~ In "-"%char l -> ~ In "_"%char l -> map standard_alphabet l = l.
Proof.
  induction l as [|c l IH]; simpl; [done|]. intros Hd Hu.
  rewrite IH by tauto. f_equal. unfold standard_alphabet.
  destruct (Ascii.eqb_spec c "-") as [->|_]; [tauto|].
  destruct (Ascii.eqb_spec c "_") as [->|_]; [tauto | done].
Qed.

(** X28. The text [base64url_to_bytearray] hands the decoder is the
    field, with every "-" turned into "+" and every "_" into "/" and all
    other characters as they are, followed by [4 - len % 4] characters
    "=": 1 to 4 of them, never none, so that a field whose length is
    already a multiple of 4 gets four.  That text holds no "-" and no "_",
    its length is a multiple of 4, and it is the field itself followed by
    the "=" when the field has no URL-safe character.  The function
    returns or raises as the decoder does on that text. *)
Theorem base64url_padding (text : string) :
  let translated :=
    string_of_list_ascii (map standard_alphabet (list_ascii_of_string text)) in
  let n := (4 - py_len text mod 4)%nat in
  let padded := translated +:+ str_repeat "=" n in
  (forall w s, base64url_to_bytearray w text s
               = lift_reply (w_urlsafe_b64decode w padded) s)
  /\ (1 <= n <= 4)%nat
  /\ py_len padded = (py_len text + n)%nat
  /\ (py_len padded mod 4 = 0)%nat
  /\ ~ In "-"%char (list_ascii_of_string padded)
  /\ ~ In "_"%char (list_ascii_of_string padded)
  /\ (~ In "-"%char (list_ascii_of_string text) ->
      ~ In "_"%char (list_ascii_of_string text) ->
      padded = text +:+ str_repeat "=" n).
Proof.
  intros translated n padded.
  assert (Htemp : str_replace "-" "+" (str_replace "_" "/" text) = translated)
    by apply str_replace_twice.
  assert (Hlen : py_len translated = py_len text).
  { rewrite <- Htemp. by rewrite !py_len_str_replace. }
  assert (Hpad : py_len padded = (py_len text + n)%nat).
  { unfold padded. by rewrite py_len_app, py_len_str_repeat, Hlen. }
  pose proof (Nat.div_mod_eq (py_len text) 4) as Hdm.
  pose proof (Nat.mod_upper_bound (py_len text) 4 ltac:(lia)) as Hub.
  split; [|split; [|split; [|split; [|split; [|split]]]]].
  - intros w s. unfold base64url_to_bytearray. cbv zeta.
    rewrite Htemp, Hlen. reflexivity.
  - unfold n. lia.
  - exact Hpad.
  - rewrite Hpad. unfold n.
    replace (py_len text + (4 - py_len text mod 4))%nat
      with ((py_len text / 4 + 1) * 4)%nat by lia.
    apply Nat.Div0.mod_mul.
  - unfold padded. rewrite <- Htemp, chars_app, in_app_iff. intros [H|H].
    + apply chars_str_replace in H as [H|[_ H]]; [discriminate | done].
    + apply chars_str_repeat in H. discriminate.
  - unfold padded. rewrite <- Htemp, chars_app, in_app_iff. intros [H|H].
    + apply chars_str_replace in H as [H|[H _]]; [discriminate|].
      apply chars_str_replace in H as [H|[_ H]]; [discriminate | done].
    + apply chars_str_repeat in H. discriminate.
  - intros Hd Hu. unfold padded, translated.
    by rewrite standard_alphabet_id, string_of_list_ascii_of_string.
Qed.

Lemma base64url_padding_witness :
  string_of_list_ascii (map standard_alphabet (list_ascii_of_string "Y2hhbGxlbmdl"))
  +:+ str_repeat "=" (4 - py_len "Y2hhbGxlbmdl" mod 4)
  = "Y2hhbGxlbmdl" +:+ str_repeat "=" (4 - py_len "Y2hhbGxlbmdl" mod 4).
Proof.
  apply (proj2 (proj2 (proj2 (proj2 (proj2 (proj2
           (base64url_padding "Y2hhbGxlbmdl")))))));
    vm_compute; intuition discriminate.
Defined.
